(** * CrystalShards API client (docs/api/examples/python_client.py)

    A shallow embedding of [CrystalShardsClient]: construction, the core
    [_request] operation with its two exception handlers, and the thin
    operations built on it.

    Conventions.
    - A Python [str] is modelled by its UTF-8 byte sequence (a Rocq [string]).
    - A Python value that can come out of [response.json()] or be passed as a
      keyword option is a [pyval].
    - A method is a computation over a [World]: the client object together
      with the list of requests handed to the HTTP session so far.
    - The remote service and the network are an oracle [Transport] that
      answers every request with a response or with a transport failure. *)

From Stdlib Require Import String Ascii List ZArith Bool Lia.
From Stdlib Require Import DecimalString.
Import ListNotations.

Set Warnings "-register-all".

Local Open Scope string_scope.
Local Open Scope Z_scope.

(** ** Python strings and values *)

Module Py.

(** [sub in s]. *)
Fixpoint contains (sub s : string) : bool :=
  if String.prefix sub s then true
  else match s with
       | EmptyString => false
       | String _ s' => contains sub s'
       end.

(** [s.startswith(p)]. *)
Definition startswith (p s : string) : bool := String.prefix p s.

(** [s.rstrip(c)] for a single character [c]: every trailing [c] is removed. *)
Fixpoint rstrip (c : ascii) (s : string) : string :=
  match s with
  | EmptyString => EmptyString
  | String a s' =>
      match rstrip c s' with
      | EmptyString => if Ascii.eqb a c then EmptyString else String a EmptyString
      | r => String a r
      end
  end.

(** [sep.join(l)]. *)
Fixpoint join (sep : string) (l : list string) : string :=
  match l with
  | [] => EmptyString
  | [x] => x
  | x :: rest => x ++ sep ++ join sep rest
  end.

(** [n] copies of the character [c]. *)
Fixpoint replicate (n : nat) (c : ascii) : string :=
  match n with
  | O => EmptyString
  | S n' => String c (replicate n' c)
  end.

(** [str(n)] for an [int]. *)
Definition str_int (n : Z) : string := NilZero.string_of_int (Z.to_int n).

(** A [dict] with [str] keys, in insertion order. *)
Definition dict (V : Type) : Type := list (string * V).

(** [d.get(k)] as an option. *)
Fixpoint lookup {V : Type} (k : string) (d : dict V) : option V :=
  match d with
  | [] => None
  | (k', v) :: rest => if String.eqb k' k then Some v else lookup k rest
  end.

(** [d[k] = v]: an existing key keeps its position, a new key goes last. *)
Fixpoint setitem {V : Type} (k : string) (v : V) (d : dict V) : dict V :=
  match d with
  | [] => [(k, v)]
  | (k', v') :: rest =>
      if String.eqb k' k then (k', v) :: rest else (k', v') :: setitem k v rest
  end.

(** [d.update(other)]. *)
Definition update {V : Type} (d other : dict V) : dict V :=
  fold_left (fun acc kv => setitem (fst kv) (snd kv) acc) other d.

Definition keys {V : Type} (d : dict V) : list string := map fst d.

(** Values: what [json.loads] produces, which also covers the scalars passed
    as search options.  A [float] is carried by its [repr], which determines
    it. *)
Inductive pyval : Type :=
| PyNone
| PyBool (b : bool)
| PyInt (n : Z)
| PyFloat (repr : string)
| PyStr (s : string)
| PyList (items : list pyval)
| PyDict (entries : list (string * pyval)).

(** Truth value, as tested by [if], [not] and [or]. *)
Definition truthy (v : pyval) : bool :=
  match v with
  | PyNone => false
  | PyBool b => b
  | PyInt n => negb (n =? 0)
  | PyFloat r => negb (String.eqb r "0.0" || String.eqb r "-0.0")
  | PyStr s => negb (String.eqb s EmptyString)
  | PyList l => match l with [] => false | _ => true end
  | PyDict d => match d with [] => false | _ => true end
  end.

(** [type(v).__name__]. *)
Definition type_name (v : pyval) : string :=
  match v with
  | PyNone => "NoneType"
  | PyBool _ => "bool"
  | PyInt _ => "int"
  | PyFloat _ => "float"
  | PyStr _ => "str"
  | PyList _ => "list"
  | PyDict _ => "dict"
  end.

Definition hex_lower (n : N) : ascii :=
  match n with
  | 0%N => "0" | 1%N => "1" | 2%N => "2" | 3%N => "3" | 4%N => "4"
  | 5%N => "5" | 6%N => "6" | 7%N => "7" | 8%N => "8" | 9%N => "9"
  | 10%N => "a" | 11%N => "b" | 12%N => "c" | 13%N => "d" | 14%N => "e"
  | _ => "f"
  end%char.

(** One character of [repr(s)] with the chosen quote [q].  Bytes from 0x80 up
    belong to the encoding of non-ASCII characters, which [repr] copies when
    they are printable; they are copied here. *)
Definition repr_char (q a : ascii) : string :=
  let n := N_of_ascii a in
  if Ascii.eqb a q || Ascii.eqb a "\"%char then String "\"%char (String a EmptyString)
  else if (n =? 9)%N then "\t"
  else if (n =? 10)%N then "\n"
  else if (n =? 13)%N then "\r"
  else if (n <? 32)%N || (n =? 127)%N then
    String "\"%char (String "x"%char
      (String (hex_lower (n / 16)) (String (hex_lower (n mod 16)) EmptyString)))
  else String a EmptyString.

(** The double quote character. *)
Definition dquote : ascii := ascii_of_N 34.

Fixpoint has_char (c : ascii) (s : string) : bool :=
  match s with
  | EmptyString => false
  | String a s' => Ascii.eqb a c || has_char c s'
  end.

Fixpoint repr_chars (q : ascii) (s : string) : string :=
  match s with
  | EmptyString => EmptyString
  | String a s' => repr_char q a ++ repr_chars q s'
  end.

(** [repr(s)] for a [str]: single quotes unless the text has a single quote
    and no double quote. *)
Definition repr_str (s : string) : string :=
  let q := if has_char "'"%char s && negb (has_char dquote s)
           then dquote else "'"%char in
  String q (repr_chars q s ++ String q EmptyString).

(** [repr(v)]. *)
Fixpoint repr (v : pyval) : string :=
  match v with
  | PyNone => "None"
  | PyBool true => "True"
  | PyBool false => "False"
  | PyInt n => str_int n
  | PyFloat r => r
  | PyStr s => repr_str s
  | PyList l => "[" ++ join ", " (map repr l) ++ "]"
  | PyDict d =>
      "{" ++ join ", " (map (fun kv : string * pyval => let (k, x) := kv in
                                         repr_str k ++ ": " ++ repr x) d)
          ++ "}"
  end.

(** [str(v)], which is also how an f-string renders [{v}]. *)
Definition str (v : pyval) : string :=
  match v with
  | PyStr s => s
  | _ => repr v
  end.

End Py.

(** ** urllib.parse *)

Module Urllib.

Definition hex_upper (n : N) : ascii :=
  match n with
  | 0%N => "0" | 1%N => "1" | 2%N => "2" | 3%N => "3" | 4%N => "4"
  | 5%N => "5" | 6%N => "6" | 7%N => "7" | 8%N => "8" | 9%N => "9"
  | 10%N => "A" | 11%N => "B" | 12%N => "C" | 13%N => "D" | 14%N => "E"
  | _ => "F"
  end%char.

(** The bytes [quote] never escapes: ASCII letters, digits and [_.-~]. *)
Definition always_safe (a : ascii) : bool :=
  let n := N_of_ascii a in
  ((65 <=? n) && (n <=? 90) || (97 <=? n) && (n <=? 122) ||
   (48 <=? n) && (n <=? 57) ||
   (n =? 95) || (n =? 46) || (n =? 45) || (n =? 126))%N.

(** [quote_plus] on one byte: a space becomes [+], a safe byte is copied,
    any other byte becomes [%XX]. *)
Definition quote_plus_byte (a : ascii) : string :=
  let n := N_of_ascii a in
  if (n =? 32)%N then "+"
  else if always_safe a then String a EmptyString
  else String "%"%char
         (String (hex_upper (n / 16)) (String (hex_upper (n mod 16)) EmptyString)).

Fixpoint quote_plus (s : string) : string :=
  match s with
  | EmptyString => EmptyString
  | String a s' => quote_plus_byte a ++ quote_plus s'
  end.

(** [urlencode(params)] for a dict: [quote_plus(str(k))=quote_plus(str(v))]
    for every item, in order, joined with [&]. *)
Definition urlencode (params : Py.dict Py.pyval) : string :=
  Py.join "&" (map (fun kv => quote_plus (fst kv) ++ "=" ++
                              quote_plus (Py.str (snd kv))) params).

End Urllib.

(** ** The [requests] library, as far as the client sees it *)

Module Requests.

(** What the client hands to [session.request]: the verb, the URL, the
    session's headers at that moment and the [json=] keyword when given. *)
Record Request : Type := mkRequest {
  method : string;
  url : string;
  headers : Py.dict string;
  json : option Py.pyval
}.

(** The outcome of [response.json()]: the decoded body, or the message of the
    [JSONDecodeError] it raises (a [RequestException] since requests 2.27). *)
Inductive JsonBody : Type :=
| Decoded (v : Py.pyval)
| Undecodable (why : string).

Record Response : Type := mkResponse {
  status_code : Z;
  reason : string;
  response_url : string;
  body : JsonBody
}.

(** [session.request] returns a response, or raises a [RequestException]
    (connection refused, DNS failure, timeout, ...) whose text is [why]. *)
Inductive Outcome : Type :=
| Answered (r : Response)
| NoResponse (why : string).

(** The service and the network: given the requests seen so far and the
    current one, the outcome. *)
Definition Transport : Type := list Request -> Request -> Outcome.

Record Session : Type := mkSession {
  session_headers : Py.dict string
}.

(** [requests.Session()]: the library's default headers. *)
Definition new_session : Session :=
  {| session_headers :=
       [("User-Agent", "python-requests/2.31.0");
        ("Accept-Encoding", "gzip, deflate");
        ("Accept", "*/*");
        ("Connection", "keep-alive")] |}.

(** [response.raise_for_status()]: the text of the [HTTPError] raised for a
    4xx or 5xx status, [None] when nothing is raised. *)
Definition raise_for_status (r : Response) : option string :=
  if (400 <=? status_code r) && (status_code r <? 500) then
    Some (Py.str_int (status_code r) ++ " Client Error: " ++ reason r ++
          " for url: " ++ response_url r)
  else if (500 <=? status_code r) && (status_code r <? 600) then
    Some (Py.str_int (status_code r) ++ " Server Error: " ++ reason r ++
          " for url: " ++ response_url r)
  else None.

End Requests.

Import Py Requests.

(** ** Exceptions and computations *)

(** The exception classes in play.  All of them derive from [Exception];
    [HTTPError] derives from [RequestException].  [str(e)] is the text. *)
Inductive PyExc : Type :=
| Exception (msg : string)
| AttributeError (msg : string)
| RequestException (msg : string)
| HTTPError (msg : string).

Definition exc_str (e : PyExc) : string :=
  match e with
  | Exception m | AttributeError m | RequestException m | HTTPError m => m
  end.

Definition is_HTTPError (e : PyExc) : bool :=
  match e with HTTPError _ => true | _ => false end.

Definition is_RequestException (e : PyExc) : bool :=
  match e with HTTPError _ | RequestException _ => true | _ => false end.

Inductive Result (A : Type) : Type :=
| Return (a : A)
| Raise (e : PyExc).

Arguments Return {A} a.
Arguments Raise {A} e.

Record CrystalShardsClient : Type := mkClient {
  base_url : string;
  api_key : option string;
  session : Session
}.

(** The client object and the requests handed to its session, oldest first. *)
Record World : Type := mkWorld {
  client : CrystalShardsClient;
  wire : list Request
}.

Definition M (A : Type) : Type := World -> Result A * World.

Definition ret {A : Type} (a : A) : M A := fun w => (Return a, w).

Definition raise {A : Type} (e : PyExc) : M A := fun w => (Raise e, w).

Definition bind {A B : Type} (c : M A) (k : A -> M B) : M B :=
  fun w =>
    match c w with
    | (Return a, w') => k a w'
    | (Raise e, w') => (Raise e, w')
    end.

(** [try: c  except <any>: h e]. *)
Definition try_except {A : Type} (c : M A) (h : PyExc -> M A) : M A :=
  fun w =>
    match c w with
    | (Return a, w') => (Return a, w')
    | (Raise e, w') => h e w'
    end.

Definition get_self : M CrystalShardsClient := fun w => (Return (client w), w).

Notation "x <- c ;; k" := (bind c (fun x => k))
  (at level 61, c at next level, right associativity).

(** An argument left out of a call takes the default of the signature. *)
Definition arg_or {A : Type} (default : A) (given : option A) : A :=
  match given with
  | Some a => a
  | None => default
  end.

(** An [Optional[str]] as a value, for truth tests. *)
Definition opt_str (k : option string) : pyval :=
  match k with
  | Some s => PyStr s
  | None => PyNone
  end.

(** ** The client *)

(** [CrystalShardsClient.__init__].  [base_url = None] stands for a call that
    leaves the argument out; [api_key = None] is Python's [None]. *)
Definition __init__ (base_url : option string) (api_key : option string)
  : CrystalShardsClient :=
  let base_url := arg_or "https://api.crystalshards.org" base_url in
  let headers :=
    update (session_headers new_session)
      [("Content-Type", "application/json");
       ("User-Agent", "CrystalShardsClient/1.0.0 (Python)")] in
  let headers :=
    if truthy (opt_str api_key)
    then setitem "Authorization" ("Bearer " ++ str (opt_str api_key)) headers
    else headers in
  {| base_url := rstrip "/" base_url;
     api_key := api_key;
     session := {| session_headers := headers |} |}.

(** The request a session call makes in world [w]. *)
Definition prepare (w : World) (method url : string) (kwargs : option pyval)
  : Request :=
  {| method := method; url := url;
     headers := session_headers (session (client w));
     json := kwargs |}.

(** The world once [req] has been handed to the session. *)
Definition sent (w : World) (req : Request) : World :=
  {| client := client w; wire := wire w ++ [req] |}.

Section Operations.

(** The service the client talks to. *)
Variable net : Transport.

(** [self.session.request(method, url, **kwargs)]. *)
Definition session_request (method url : string) (kwargs : option pyval)
  : M Response :=
  fun w =>
    let req := prepare w method url kwargs in
    match net (wire w) req with
    | Answered r => (Return r, sent w req)
    | NoResponse why => (Raise (RequestException why), sent w req)
    end.

(** [response.raise_for_status()] as a computation. *)
Definition check_status (r : Response) : M unit :=
  match raise_for_status r with
  | Some msg => raise (HTTPError msg)
  | None => ret tt
  end.

(** [response.json()] as a computation; its error is a [RequestException]. *)
Definition response_json (r : Response) : M pyval :=
  match body r with
  | Decoded v => ret v
  | Undecodable why => raise (RequestException why)
  end.

(** [obj.get(key)]: defined on a [dict], an [AttributeError] elsewhere. *)
Definition py_get (obj : pyval) (key : string) : M pyval :=
  match obj with
  | PyDict d => ret (arg_or PyNone (lookup key d))
  | _ => raise (AttributeError
                  ("'" ++ type_name obj ++ "' object has no attribute 'get'"))
  end.

(** The first handler of [_request], [except HTTPError as e], with
    [response] bound by the [try] block. *)
Definition on_http_error {A : Type} (response : Response) (e : PyExc)
  : M A :=
  let error_data :=
    match body response with
    | Decoded v => v
    | Undecodable _ => PyDict []
    end in
  a <- py_get error_data "error" ;;
  error_msg <- (if truthy a then ret a
                else b <- py_get error_data "message" ;;
                     if truthy b then ret b else ret (PyStr (exc_str e))) ;;
  raise (Exception ("API Error " ++ str_int (status_code response) ++ ": " ++
                    str error_msg)).

(** The second handler, [except RequestException as e]. *)
Definition on_request_exception {A : Type} (e : PyExc) : M A :=
  raise (Exception ("Request failed: " ++ exc_str e)).

(** [CrystalShardsClient._request].  [session.request] raises no
    [HTTPError] of its own, so the first handler runs only once [response]
    is bound; the handlers are tried in the order of the source. *)
Definition _request (method endpoint : string) (kwargs : option pyval)
  : M pyval :=
  self <- get_self ;;
  let url := base_url self ++ endpoint in
  response <- try_except (session_request method url kwargs)
                (fun e => if is_RequestException e
                          then on_request_exception e
                          else raise e) ;;
  try_except (_ <- check_status response ;; response_json response)
    (fun e => if is_HTTPError e then on_http_error response e
              else if is_RequestException e then on_request_exception e
              else raise e).

Definition is_none (v : pyval) : bool :=
  match v with PyNone => true | _ => false end.

(** [search_shards(query, **options)]. *)
Definition search_shards (query : string) (options : dict pyval) : M pyval :=
  let params := [("q", PyStr query)] in
  let params :=
    update params (filter (fun kv => negb (is_none (snd kv))) options) in
  _request "GET" ("/api/v1/search?" ++ Urllib.urlencode params) None.

(** [get_shard(name)]. *)
Definition get_shard (name : string) : M pyval :=
  try_except (_request "GET" ("/api/v1/shards/" ++ name) None)
    (fun e => if contains "404" (exc_str e) then ret PyNone else raise e).

(** [submit_shard(github_url)]. *)
Definition submit_shard (github_url : string) : M pyval :=
  self <- get_self ;;
  if negb (truthy (opt_str (api_key self)))
  then raise (Exception "API key required for shard submission")
  else
    let payload := PyDict [("github_url", PyStr github_url)] in
    _request "POST" "/api/v1/shards" (Some payload).

(** [get_suggestions(query, limit=10)]. *)
Definition get_suggestions (query : string) (limit : option Z) : M pyval :=
  let limit := arg_or 10 limit in
  let params := [("q", PyStr query); ("limit", PyInt limit)] in
  _request "GET" ("/api/v1/search/suggestions?" ++ Urllib.urlencode params)
    None.

(** [get_trending_searches(limit=20)]. *)
Definition get_trending_searches (limit : option Z) : M pyval :=
  let limit := arg_or 20 limit in
  let params := [("limit", PyInt limit)] in
  _request "GET" ("/api/v1/search/trending?" ++ Urllib.urlencode params) None.

(** [get_popular_searches(limit=20)]. *)
Definition get_popular_searches (limit : option Z) : M pyval :=
  let limit := arg_or 20 limit in
  let params := [("limit", PyInt limit)] in
  _request "GET" ("/api/v1/search/popular?" ++ Urllib.urlencode params) None.

(** [get_search_analytics(days=7)]. *)
Definition get_search_analytics (days : option Z) : M pyval :=
  let days := arg_or 7 days in
  let params := [("days", PyInt days)] in
  _request "GET" ("/api/v1/search/analytics?" ++ Urllib.urlencode params) None.

(** [get_search_filters()]. *)
Definition get_search_filters : M pyval :=
  _request "GET" "/api/v1/search/filters" None.

(** [list_shards(page=1, per_page=20)]. *)
Definition list_shards (page per_page : option Z) : M pyval :=
  let page := arg_or 1 page in
  let per_page := arg_or 20 per_page in
  let params := [("page", PyInt page); ("per_page", PyInt per_page)] in
  _request "GET" ("/api/v1/shards?" ++ Urllib.urlencode params) None.

(** [get_api_info()]. *)
Definition get_api_info : M pyval := _request "GET" "/api/v1" None.

(** [health_check()]. *)
Definition health_check : M pyval := _request "GET" "/health" None.

(** A call of one public method with its arguments; an argument with a
    default is [None] when the caller leaves it out. *)
Inductive Call : Type :=
| SearchShards (query : string) (options : dict pyval)
| GetShard (name : string)
| SubmitShard (github_url : string)
| GetSuggestions (query : string) (limit : option Z)
| GetTrendingSearches (limit : option Z)
| GetPopularSearches (limit : option Z)
| GetSearchAnalytics (days : option Z)
| GetSearchFilters
| ListShards (page per_page : option Z)
| GetApiInfo
| HealthCheck.

Definition invoke (c : Call) : M pyval :=
  match c with
  | SearchShards query options => search_shards query options
  | GetShard name => get_shard name
  | SubmitShard github_url => submit_shard github_url
  | GetSuggestions query limit => get_suggestions query limit
  | GetTrendingSearches limit => get_trending_searches limit
  | GetPopularSearches limit => get_popular_searches limit
  | GetSearchAnalytics days => get_search_analytics days
  | GetSearchFilters => get_search_filters
  | ListShards page per_page => list_shards page per_page
  | GetApiInfo => get_api_info
  | HealthCheck => health_check
  end.

End Operations.

(** ** The error text, as the interface describes it *)

(** A field of the response body when the body is a JSON object; [None]
    when the field or the object is missing. *)
Definition body_field (k : string) (r : Response) : pyval :=
  match body r with
  | Decoded (PyDict d) => arg_or PyNone (lookup k d)
  | _ => PyNone
  end.

(** The generic description derived from the status alone. *)
Definition generic_message (r : Response) : string :=
  arg_or EmptyString (raise_for_status r).

(** The message of a failure response: the [error] field when it holds
    something, else the [message] field when it holds something, else the
    generic description. *)
Definition resolved_message (r : Response) : string :=
  if truthy (body_field "error" r) then str (body_field "error" r)
  else if truthy (body_field "message" r) then str (body_field "message" r)
  else generic_message r.

(** The text of the error raised for a failure response. *)
Definition error_text (r : Response) : string :=
  "API Error " ++ str_int (status_code r) ++ ": " ++ resolved_message r.

(** The body is either no JSON at all or a JSON object. *)
Definition object_or_undecodable (r : Response) : bool :=
  match body r with
  | Decoded (PyDict _) => true
  | Decoded _ => false
  | Undecodable _ => true
  end.

(** The [params] dict that [search_shards] encodes. *)
Definition search_params (query : string) (options : dict pyval)
  : dict pyval :=
  update [("q", PyStr query)]
    (filter (fun kv => negb (is_none (snd kv))) options).

(** ** Reading a request back *)

(** The part of a URL after its first [?], if any. *)
Fixpoint query_string (u : string) : option string :=
  match u with
  | EmptyString => None
  | String a u' => if Ascii.eqb a "?" then Some u' else query_string u'
  end.

(** Splits at every occurrence of [sep]. *)
Fixpoint split_on (sep : ascii) (s : string) : list string :=
  match s with
  | EmptyString => [EmptyString]
  | String a s' =>
      if Ascii.eqb a sep then EmptyString :: split_on sep s'
      else match split_on sep s' with
           | [] => [String a EmptyString]
           | x :: rest => String a x :: rest
           end
  end.

(** The text before the first [sep]. *)
Fixpoint before (sep : ascii) (s : string) : string :=
  match s with
  | EmptyString => EmptyString
  | String a s' => if Ascii.eqb a sep then EmptyString
                   else String a (before sep s')
  end.

(** The parameter names of a query string [k1=v1&k2=v2&...]. *)
Definition query_keys (qs : string) : list string :=
  match qs with
  | EmptyString => []
  | _ => map (before "=") (split_on "&" qs)
  end.

(** ** Scenarios *)

(** A client built with every argument left out, before any call. *)
Definition anonymous : World :=
  {| client := __init__ None None; wire := [] |}.

(** A client built with an API key, before any call. *)
Definition keyed : World :=
  {| client := __init__ None (Some "secret"); wire := [] |}.

(** A service that answers every request with the same status and body. *)
Definition answering (status : Z) (reason : string) (b : JsonBody)
  : Transport :=
  fun _ rq => Answered {| status_code := status; reason := reason;
                          response_url := url rq; body := b |}.

(** The body of the health-check fixture. *)
Definition health_ok : pyval :=
  PyDict [("status", PyStr "ok"); ("timestamp", PyStr "2024-01-01T00:00:00Z")].

(** A network on which no request gets a response. *)
Definition unreachable (why : string) : Transport :=
  fun _ _ => NoResponse why.

(** The world after a series of calls, whatever each of them yields. *)
Definition after_calls (net : Transport) (calls : list Call) (w : World)
  : World :=
  fold_left (fun w c => snd (invoke net c w)) calls w.

(** ** The asynchronous client *)

Module Async.

(** What can come out of awaiting a method of [CrystalShardsAsync]: one of
    the exceptions above, an [aiohttp.ClientError] raised by the session
    when no response is obtained, or the error [response.json()] raises on
    a body it cannot decode. *)
Inductive Raised : Type :=
| Py (e : PyExc)
| ClientError (msg : string)
| DecodeError (msg : string).

Inductive Outcome (A : Type) : Type :=
| Done (a : A)
| Failed (e : Raised).

Arguments Done {A} a.
Arguments Failed {A} e.

Record CrystalShardsAsync : Type := mkAsync {
  base_url : string;
  api_key : option string
}.

(** [CrystalShardsAsync.__init__]. *)
Definition __init__ (base_url : option string) (api_key : option string)
  : CrystalShardsAsync :=
  let base_url := arg_or "https://api.crystalshards.org" base_url in
  {| base_url := rstrip "/" base_url; api_key := api_key |}.

(** The [headers] dict that [_request] builds on every call. *)
Definition request_headers (self : CrystalShardsAsync) : dict string :=
  let headers :=
    [("Content-Type", "application/json");
     ("User-Agent", "CrystalShardsClient/1.0.0 (Python/Async)")] in
  if truthy (opt_str (api_key self))
  then setitem "Authorization" ("Bearer " ++ str (opt_str (api_key self)))
         headers
  else headers.

(** [response.ok]: the status is below 400. *)
Definition ok (r : Response) : bool := status_code r <? 400.

(** [obj.get(key)] outside the monad of the synchronous client. *)
Definition get (obj : pyval) (key : string) : PyExc + pyval :=
  match obj with
  | PyDict d => inr (arg_or PyNone (lookup key d))
  | _ => inl (AttributeError
                ("'" ++ type_name obj ++ "' object has no attribute 'get'"))
  end.

(** The branch [if not response.ok] of [_request]: the exception it ends
    in. *)
Definition not_ok_error (response : Response) : PyExc :=
  let error_data :=
    match body response with
    | Decoded v => v
    | Undecodable _ => PyDict []
    end in
  match get error_data "error" with
  | inl e => e
  | inr a =>
      let fallback := PyStr ("HTTP " ++ str_int (status_code response)) in
      let error_msg :=
        if truthy a then inr a
        else match get error_data "message" with
             | inl e => inl e
             | inr b => inr (if truthy b then b else fallback)
             end in
      match error_msg with
      | inl e => e
      | inr m => Exception ("API Error " ++ str_int (status_code response) ++
                            ": " ++ str m)
      end
  end.

(** [CrystalShardsAsync._request], awaited to its end.  [aiohttp_installed]
    tells whether [import aiohttp] succeeds; [requests_so_far] are the
    requests handed to earlier sessions, and the second component of the
    result is that list afterwards. *)
Definition _request (aiohttp_installed : bool) (net : Transport)
    (self : CrystalShardsAsync) (method endpoint : string)
    (kwargs : option pyval) (requests_so_far : list Request)
  : Outcome pyval * list Request :=
  if negb aiohttp_installed
  then (Failed (Py (Exception
                      "aiohttp required for async client: pip install aiohttp")),
        requests_so_far)
  else
    let headers := request_headers self in
    let url := base_url self ++ endpoint in
    let req := {| method := method; url := url; headers := headers;
                  json := kwargs |} in
    match net requests_so_far req with
    | NoResponse why => (Failed (ClientError why), (requests_so_far ++ [req])%list)
    | Answered response =>
        (if negb (ok response) then Failed (Py (not_ok_error response))
         else match body response with
              | Decoded v => Done v
              | Undecodable why => Failed (DecodeError why)
              end,
         (requests_so_far ++ [req])%list)
    end.

(** [CrystalShardsAsync.search_shards(query, **options)]. *)
Definition search_shards (aiohttp_installed : bool) (net : Transport)
    (self : CrystalShardsAsync) (query : string) (options : dict pyval)
    (requests_so_far : list Request)
  : Outcome pyval * list Request :=
  let params := [("q", PyStr query)] in
  let params :=
    update params (filter (fun kv => negb (is_none (snd kv))) options) in
  _request aiohttp_installed net self "GET"
    ("/api/v1/search?" ++ Urllib.urlencode params) None requests_so_far.

End Async.

(** * Properties *)

(** ** Strings *)

Lemma prefix_app (p s : string) : String.prefix p (p ++ s) = true.
Proof.
  induction p as [|a p IH]; simpl.
  - now destruct s.
  - destruct (ascii_dec a a) as [_|ne]; [exact IH | now elim ne].
Qed.

Lemma append_assoc (a b c : string) : (a ++ b) ++ c = a ++ b ++ c.
Proof. induction a as [|x a IH]; simpl; [reflexivity | now rewrite IH]. Qed.

Lemma contains_here (sub s : string) :
  String.prefix sub s = true -> contains sub s = true.
Proof. intros H. destruct s; cbn [contains]; now rewrite H. Qed.

Lemma contains_later (sub : string) (a : ascii) (s : string) :
  contains sub s = true -> contains sub (String a s) = true.
Proof.
  intros H. cbn [contains].
  destruct (String.prefix sub (String a s)); [reflexivity | exact H].
Qed.

Lemma contains_infix (sub pre post : string) :
  contains sub (pre ++ sub ++ post) = true.
Proof.
  induction pre as [|a pre IH]; cbn [append].
  - apply contains_here, prefix_app.
  - apply contains_later, IH.
Qed.

Lemma rstrip_tail (c : ascii) (s : string) :
  exists n, s = rstrip c s ++ replicate n c.
Proof.
  induction s as [|a s [n IH]].
  - now exists O.
  - simpl. destruct (rstrip c s) as [|b r] eqn:E.
    + destruct (Ascii.eqb_spec a c) as [->|ne].
      * exists (S n). simpl. now rewrite IH at 1.
      * exists n. simpl. now rewrite IH at 1.
    + exists n. simpl. now rewrite IH at 1.
Qed.

Lemma rstrip_stripped (c : ascii) (s t : string) :
  rstrip c s <> t ++ String c EmptyString.
Proof.
  revert t. induction s as [|a s IH]; intros t.
  - destruct t; discriminate.
  - simpl. destruct (rstrip c s) as [|b r] eqn:E.
    + destruct (Ascii.eqb_spec a c) as [->|ne].
      * destruct t; discriminate.
      * destruct t as [|x t]; simpl; intros H; inversion H; subst.
        -- now elim ne.
        -- destruct t; discriminate.
    + destruct t as [|x t]; simpl; intros H; inversion H; subst.
      now apply (IH t).
Qed.

(** ** The status test of [raise_for_status] *)

Lemma raise_for_status_error (r : Response) :
  400 <= status_code r < 600 ->
  exists msg, raise_for_status r = Some msg.
Proof.
  intros H. unfold raise_for_status.
  destruct (Z.leb_spec 400 (status_code r)); [|lia].
  destruct (Z.ltb_spec (status_code r) 500); simpl; [eauto|].
  destruct (Z.leb_spec 500 (status_code r)); [|lia].
  destruct (Z.ltb_spec (status_code r) 600); simpl; [eauto|lia].
Qed.

Lemma raise_for_status_quiet (r : Response) :
  ~ (400 <= status_code r < 600) -> raise_for_status r = None.
Proof.
  intros H. unfold raise_for_status.
  destruct (Z.leb_spec 400 (status_code r));
    destruct (Z.ltb_spec (status_code r) 500); simpl; try lia;
    destruct (Z.leb_spec 500 (status_code r));
    destruct (Z.ltb_spec (status_code r) 600); simpl; try lia; reflexivity.
Qed.

(** ** [_request], case by case *)

Ltac step_request :=
  cbv beta zeta delta [_request bind get_self try_except session_request
    check_status response_json on_http_error on_request_exception
    py_get raise ret]; simpl.

Lemma _request_world (net : Transport) (method endpoint : string)
    (kwargs : option pyval) (w : World) :
  snd (_request net method endpoint kwargs w) =
  sent w (prepare w method (base_url (client w) ++ endpoint) kwargs).
Proof.
  step_request.
  destruct (net _ _) as [r|why]; simpl; [|reflexivity].
  destruct (raise_for_status r); simpl.
  - destruct (body r) as [[]|]; simpl; try reflexivity;
      repeat match goal with
             | |- context [truthy ?v] => destruct (truthy v); simpl
             end; reflexivity.
  - destruct (body r); reflexivity.
Qed.

Lemma _request_no_response (net : Transport) (method endpoint : string)
    (kwargs : option pyval) (w : World) (why : string) :
  net (wire w) (prepare w method (base_url (client w) ++ endpoint) kwargs)
    = NoResponse why ->
  fst (_request net method endpoint kwargs w) =
  Raise (Exception ("Request failed: " ++ why)).
Proof. intros H. step_request. now rewrite H. Qed.

Lemma _request_quiet (net : Transport) (method endpoint : string)
    (kwargs : option pyval) (w : World) (r : Response) (v : pyval) :
  net (wire w) (prepare w method (base_url (client w) ++ endpoint) kwargs)
    = Answered r ->
  raise_for_status r = None ->
  body r = Decoded v ->
  fst (_request net method endpoint kwargs w) = Return v.
Proof. intros H Hs Hb. step_request. now rewrite H, Hs, Hb. Qed.

Lemma _request_http_error (net : Transport) (method endpoint : string)
    (kwargs : option pyval) (w : World) (r : Response) :
  net (wire w) (prepare w method (base_url (client w) ++ endpoint) kwargs)
    = Answered r ->
  400 <= status_code r < 600 ->
  object_or_undecodable r = true ->
  fst (_request net method endpoint kwargs w) = Raise (Exception (error_text r)).
Proof.
  intros H Hs Hb. destruct (raise_for_status_error r Hs) as [msg Hm].
  step_request. rewrite H. simpl. rewrite Hm. simpl.
  unfold error_text, resolved_message, body_field, generic_message.
  unfold object_or_undecodable in Hb. rewrite Hm.
  destruct (body r) as [[]|]; try discriminate; simpl.
  - destruct (truthy (arg_or PyNone (lookup "error" entries))); simpl;
      [reflexivity|].
    destruct (truthy (arg_or PyNone (lookup "message" entries))); reflexivity.
  - reflexivity.
Qed.

Lemma _request_not_an_object (net : Transport) (method endpoint : string)
    (kwargs : option pyval) (w : World) (r : Response) (v : pyval) :
  net (wire w) (prepare w method (base_url (client w) ++ endpoint) kwargs)
    = Answered r ->
  400 <= status_code r < 600 ->
  body r = Decoded v ->
  object_or_undecodable r = false ->
  fst (_request net method endpoint kwargs w) =
  Raise (AttributeError
           ("'" ++ type_name v ++ "' object has no attribute 'get'")).
Proof.
  intros H Hs Hb Ho. destruct (raise_for_status_error r Hs) as [msg Hm].
  unfold object_or_undecodable in Ho. rewrite Hb in Ho.
  step_request. rewrite H. simpl. rewrite Hm. simpl. rewrite Hb.
  destruct v; try discriminate; reflexivity.
Qed.

(** ** Authentication *)

(** C1.  [submit_shard] on a client that holds no API key raises
    [Exception("API key required for shard submission")] and leaves the world
    as it was: nothing is handed to the session. *)
Theorem submit_shard_needs_key (net : Transport) (w : World)
    (github_url : string) :
  api_key (client w) = None ->
  submit_shard net github_url w =
  (Raise (Exception "API key required for shard submission"), w).
Proof.
  intros H. unfold submit_shard, bind, get_self. rewrite H. reflexivity.
Qed.

Lemma submit_shard_needs_key_witness :
  api_key (client anonymous) = None /\
  submit_shard (answering 201 "Created" (Decoded (PyDict [])))
    "https://github.com/user/repo" anonymous =
  (Raise (Exception "API key required for shard submission"), anonymous).
Proof.
  split; [reflexivity | apply submit_shard_needs_key; reflexivity].
Defined.

(** C10.  A client built with the empty string as its key has no
    [Authorization] header, and [submit_shard] raises the local error on it
    without handing anything to the session. *)
Theorem empty_key_is_unauthenticated (net : Transport)
    (base : option string) (requests_so_far : list Request)
    (github_url : string) :
  let c := __init__ base (Some EmptyString) in
  let w := {| client := c; wire := requests_so_far |} in
  api_key c = Some EmptyString /\
  lookup "Authorization" (session_headers (session c)) = None /\
  submit_shard net github_url w =
  (Raise (Exception "API key required for shard submission"), w).
Proof. repeat split. Qed.

(** ** Construction *)

(** C7, as the code has it.  A client built without a base URL uses
    [https://api.crystalshards.org]. *)
Theorem default_base_url (key : option string) :
  base_url (__init__ None key) = "https://api.crystalshards.org".
Proof. reflexivity. Qed.

(** C7 as stated fails: the default is not [https://api.example.org]. *)
Lemma default_base_url_is_not_example_org :
  base_url (__init__ None None) <> "https://api.example.org".
Proof. discriminate. Qed.

(** ** The core operation *)

(** Every public method other than [get_shard] is [_request] applied to a
    verb, a path and a body, once the key test of [submit_shard] has passed:
    whatever [_request] yields for every request is what the method yields. *)
Lemma invoke_passes_on (net : Transport) (w : World) (c : Call)
    (res : Result pyval) :
  (forall method endpoint kwargs,
     fst (_request net method endpoint kwargs w) = res) ->
  (forall name, c <> GetShard name) ->
  (forall u, c = SubmitShard u -> truthy (opt_str (api_key (client w))) = true) ->
  fst (invoke net c w) = res.
Proof.
  intros H Hg Hk. destruct c; simpl; try apply H.
  - now elim (Hg name).
  - unfold submit_shard, bind, get_self. rewrite (Hk _ eq_refl). simpl.
    apply H.
Qed.

(** C5.  When the transport obtains no response, [_request] raises
    [Exception("Request failed: <text>")]: a transport-failure message that
    has no status-code part.  Every public method that does not catch the
    error itself hands it to its caller unchanged. *)
Theorem transport_failure (net : Transport) (w : World) (why : string) :
  (forall method endpoint kwargs,
     net (wire w) (prepare w method (base_url (client w) ++ endpoint) kwargs)
       = NoResponse why ->
     _request net method endpoint kwargs w =
       (Raise (Exception ("Request failed: " ++ why)),
        sent w (prepare w method (base_url (client w) ++ endpoint) kwargs)) /\
     startswith "API Error" ("Request failed: " ++ why) = false) /\
  ((forall rq, net (wire w) rq = NoResponse why) ->
   forall c,
     (forall name, c <> GetShard name) ->
     (forall u, c = SubmitShard u ->
                truthy (opt_str (api_key (client w))) = true) ->
     fst (invoke net c w) = Raise (Exception ("Request failed: " ++ why))).
Proof.
  split.
  - intros method endpoint kwargs H. split; [|reflexivity].
    rewrite (surjective_pairing (_request _ _ _ _ _)).
    now rewrite _request_world, (_request_no_response _ _ _ _ _ _ H).
  - intros H c Hg Hk. apply invoke_passes_on; trivial.
    intros. now apply _request_no_response.
Qed.

Lemma transport_failure_witness :
  unreachable "Connection refused" (wire anonymous)
    (prepare anonymous "GET" (base_url (client anonymous) ++ "/health") None)
    = NoResponse "Connection refused" /\
  _request (unreachable "Connection refused") "GET" "/health" None anonymous =
    (Raise (Exception "Request failed: Connection refused"),
     sent anonymous
       (prepare anonymous "GET" "https://api.crystalshards.org/health" None)) /\
  fst (invoke (unreachable "Connection refused") HealthCheck anonymous) =
    Raise (Exception "Request failed: Connection refused").
Proof.
  pose proof (transport_failure (unreachable "Connection refused") anonymous
                "Connection refused") as [H1 H2].
  split; [reflexivity|]. split.
  - apply (H1 "GET" "/health" None). reflexivity.
  - apply H2; [reflexivity | discriminate | discriminate].
Defined.

(** C6.  A 2xx response whose body decodes to [v] makes [_request] return
    [v] itself, and so does every public method that reaches the service. *)
Theorem success_returns_decoded_body (net : Transport) (w : World)
    (r : Response) (v : pyval) :
  200 <= status_code r < 300 ->
  body r = Decoded v ->
  (forall method endpoint kwargs,
     net (wire w) (prepare w method (base_url (client w) ++ endpoint) kwargs)
       = Answered r ->
     _request net method endpoint kwargs w =
       (Return v,
        sent w (prepare w method (base_url (client w) ++ endpoint) kwargs))) /\
  ((forall rq, net (wire w) rq = Answered r) ->
   forall c,
     (forall u, c = SubmitShard u ->
                truthy (opt_str (api_key (client w))) = true) ->
     fst (invoke net c w) = Return v).
Proof.
  intros Hs Hb.
  assert (Hq : raise_for_status r = None)
    by (apply raise_for_status_quiet; lia).
  split.
  - intros method endpoint kwargs H.
    rewrite (surjective_pairing (_request _ _ _ _ _)).
    now rewrite _request_world, (_request_quiet _ _ _ _ _ _ _ H Hq Hb).
  - intros H c Hk.
    assert (Hr : forall method endpoint kwargs,
               fst (_request net method endpoint kwargs w) = Return v)
      by (intros; now apply (_request_quiet _ _ _ _ _ r)).
    destruct c as [| name | | | | | | | | |];
      try (apply invoke_passes_on; trivial; discriminate).
    simpl. unfold get_shard, try_except.
    specialize (Hr "GET" ("/api/v1/shards/" ++ name) None).
    destruct (_request _ _ _ _ _) as [[a|e] w']; simpl in *; congruence.
Qed.

Lemma success_returns_decoded_body_witness :
  _request (answering 200 "OK" (Decoded health_ok)) "GET" "/health" None
    anonymous =
    (Return health_ok,
     sent anonymous
       (prepare anonymous "GET" "https://api.crystalshards.org/health" None)) /\
  fst (invoke (answering 200 "OK" (Decoded health_ok)) HealthCheck anonymous) =
    Return health_ok.
Proof.
  assert (Hs : 200 <= 200 < 300) by lia.
  pose proof (success_returns_decoded_body
                (answering 200 "OK" (Decoded health_ok)) anonymous
                {| status_code := 200; reason := "OK";
                   response_url := "https://api.crystalshards.org/health";
                   body := Decoded health_ok |} health_ok Hs eq_refl)
    as [H1 H2].
  split.
  - apply (H1 "GET" "/health" None). reflexivity.
  - reflexivity.
Defined.

(** ** [get_shard] *)

(** C9.  [get_shard] turns an error of [_request] into an absent result
    exactly when the text of the error has [404] in it, whatever the status
    was; so a 500 whose [error] field mentions 404 comes back as [None]
    although [_request] raised [API Error 500]. *)
Theorem get_shard_tests_the_text :
  (forall net name w,
     get_shard net name w =
     match _request net "GET" ("/api/v1/shards/" ++ name) None w with
     | (Return v, w') => (Return v, w')
     | (Raise e, w') =>
         if contains "404" (exc_str e) then (Return PyNone, w')
         else (Raise e, w')
     end) /\
  (exists r : Response,
     let net : Transport := fun _ _ => Answered r in
     status_code r = 500 /\
     fst (_request net "GET" "/api/v1/shards/kemal" None anonymous) =
       Raise (Exception "API Error 500: upstream returned 404") /\
     fst (get_shard net "kemal" anonymous) = Return PyNone).
Proof.
  split.
  - intros net name w. unfold get_shard, try_except.
    destruct (_request _ _ _ _ _) as [[v|e] w']; [reflexivity|].
    unfold ret, raise. now destruct (contains "404" (exc_str e)).
  - exists {| status_code := 500; reason := "Internal Server Error";
              response_url :=
                "https://api.crystalshards.org/api/v1/shards/kemal";
              body := Decoded
                        (PyDict [("error", PyStr "upstream returned 404")]) |}.
    repeat split.
Qed.

(** [get_shard] on a failure response whose body [_request] can read. *)
Lemma get_shard_http_error (net : Transport) (name : string) (w : World)
    (r : Response) :
  net (wire w)
      (prepare w "GET" (base_url (client w) ++ "/api/v1/shards/" ++ name) None)
    = Answered r ->
  400 <= status_code r < 600 ->
  object_or_undecodable r = true ->
  get_shard net name w =
  (if contains "404" (error_text r) then Return PyNone
   else Raise (Exception (error_text r)),
   sent w (prepare w "GET"
             (base_url (client w) ++ "/api/v1/shards/" ++ name) None)).
Proof.
  intros H Hs Hb.
  pose proof (_request_http_error _ _ _ _ _ _ H Hs Hb) as Hf.
  pose proof (_request_world net "GET" ("/api/v1/shards/" ++ name) None w)
    as Hw.
  unfold get_shard, try_except.
  destruct (_request _ _ _ _ _) as [res w']; cbn [fst snd] in Hf, Hw.
  subst res w'. cbn [exc_str]. unfold ret, raise.
  now destruct (contains "404" (error_text r)).
Qed.

Lemma error_text_of_404 (r : Response) :
  status_code r = 404 -> contains "404" (error_text r) = true.
Proof.
  intros H. unfold error_text. rewrite H.
  change (str_int 404) with "404".
  apply (contains_infix "404" "API Error ").
Qed.

(** C2, as the code has it.  For a 4xx or 5xx answer whose body is no JSON
    or a JSON object: a 404 yields [None]; any status yields [None] when the
    error text has [404] in it, and otherwise [get_shard] raises the error
    of [_request], whose text starts with [API Error <status>: ]. *)
Theorem get_shard_not_found_translation (net : Transport) (name : string)
    (w : World) (r : Response) :
  net (wire w)
      (prepare w "GET" (base_url (client w) ++ "/api/v1/shards/" ++ name) None)
    = Answered r ->
  400 <= status_code r < 600 ->
  object_or_undecodable r = true ->
  let w' := sent w (prepare w "GET"
                      (base_url (client w) ++ "/api/v1/shards/" ++ name) None)
  in
  (status_code r = 404 -> get_shard net name w = (Return PyNone, w')) /\
  (contains "404" (error_text r) = true ->
   get_shard net name w = (Return PyNone, w')) /\
  (contains "404" (error_text r) = false ->
   get_shard net name w = (Raise (Exception (error_text r)), w')) /\
  startswith ("API Error " ++ str_int (status_code r) ++ ": ") (error_text r)
    = true.
Proof.
  intros H Hs Hb w'. subst w'.
  rewrite (get_shard_http_error _ _ _ _ H Hs Hb).
  repeat split.
  - intros E. now rewrite (error_text_of_404 r E).
  - now intros ->.
  - now intros ->.
  - unfold startswith, error_text.
    set (p := "API Error " ++ str_int (status_code r) ++ ": ").
    replace ("API Error " ++ str_int (status_code r) ++ ": " ++
             resolved_message r) with (p ++ resolved_message r)
      by (unfold p; now rewrite !append_assoc).
    apply prefix_app.
Qed.

Lemma get_shard_not_found_translation_witness :
  400 <= 404 < 600 /\
  get_shard (answering 404 "Not Found" (Undecodable "Expecting value"))
    "missing" anonymous =
  (Return PyNone,
   sent anonymous
     (prepare anonymous "GET"
        "https://api.crystalshards.org/api/v1/shards/missing" None)).
Proof.
  assert (Hs : 400 <= 404 < 600) by lia.
  split; [exact Hs|].
  apply (get_shard_not_found_translation
           (answering 404 "Not Found" (Undecodable "Expecting value"))
           "missing" anonymous
           {| status_code := 404; reason := "Not Found";
              response_url :=
                "https://api.crystalshards.org/api/v1/shards/missing";
              body := Undecodable "Expecting value" |}
           eq_refl Hs eq_refl).
  reflexivity.
Defined.

(** C2 as stated fails twice.  A 503 whose [error] field mentions 404 comes
    back as [None] instead of an error carrying 503; and a 404 whose body is
    a JSON array is not turned into [None]: [_request] ends in an
    [AttributeError], which [get_shard] raises again. *)
Lemma get_shard_counterexamples :
  fst (get_shard
         (answering 503 "Service Unavailable"
            (Decoded (PyDict [("error", PyStr "backend answered 404")])))
         "kemal" anonymous) = Return PyNone /\
  fst (get_shard (answering 404 "Not Found" (Decoded (PyList [])))
         "missing" anonymous) =
    Raise (AttributeError "'list' object has no attribute 'get'").
Proof. split; reflexivity. Qed.

(** ** Failure responses *)

(** C4, as the code has it.  For a 4xx or 5xx answer whose body is no JSON
    or a JSON object, [_request] raises
    [Exception("API Error <status>: <message>")], the message being the
    [error] field when it is true in Python's sense, else the [message]
    field when it is, else the generic description of the status. *)
Theorem failure_message_resolution (net : Transport) (w : World)
    (method endpoint : string) (kwargs : option pyval) (r : Response) :
  net (wire w) (prepare w method (base_url (client w) ++ endpoint) kwargs)
    = Answered r ->
  400 <= status_code r < 600 ->
  object_or_undecodable r = true ->
  _request net method endpoint kwargs w =
    (Raise (Exception ("API Error " ++ str_int (status_code r) ++ ": " ++
                       resolved_message r)),
     sent w (prepare w method (base_url (client w) ++ endpoint) kwargs)) /\
  (truthy (body_field "error" r) = true ->
   resolved_message r = str (body_field "error" r)) /\
  (truthy (body_field "error" r) = false ->
   truthy (body_field "message" r) = true ->
   resolved_message r = str (body_field "message" r)) /\
  (truthy (body_field "error" r) = false ->
   truthy (body_field "message" r) = false ->
   raise_for_status r = Some (resolved_message r)) /\
  (forall why, body r = Undecodable why ->
   raise_for_status r = Some (resolved_message r)).
Proof.
  intros H Hs Hb.
  destruct (raise_for_status_error r Hs) as [msg Hm].
  repeat split.
  - rewrite (surjective_pairing (_request _ _ _ _ _)).
    now rewrite _request_world, (_request_http_error _ _ _ _ _ _ H Hs Hb).
  - unfold resolved_message. now intros ->.
  - unfold resolved_message. now intros -> ->.
  - unfold resolved_message, generic_message. intros -> ->.
    now rewrite Hm.
  - intros why Hw. unfold resolved_message, generic_message, body_field.
    rewrite Hw, Hm. reflexivity.
Qed.

Lemma failure_message_resolution_witness :
  400 <= 401 < 600 /\
  _request
    (answering 401 "Unauthorized"
       (Decoded (PyDict [("error", PyStr "invalid token")])))
    "POST" "/api/v1/shards" None keyed =
  (Raise (Exception "API Error 401: invalid token"),
   sent keyed
     (prepare keyed "POST" "https://api.crystalshards.org/api/v1/shards"
        None)).
Proof.
  assert (Hs : 400 <= 401 < 600) by lia.
  split; [exact Hs|].
  apply (failure_message_resolution
           (answering 401 "Unauthorized"
              (Decoded (PyDict [("error", PyStr "invalid token")])))
           keyed "POST" "/api/v1/shards" None
           {| status_code := 401; reason := "Unauthorized";
              response_url := "https://api.crystalshards.org/api/v1/shards";
              body := Decoded (PyDict [("error", PyStr "invalid token")]) |}
           eq_refl Hs eq_refl).
Defined.

(** C4 as stated fails twice.  A body that is JSON but no object (here an
    array) ends in an [AttributeError], not in an API error; and an [error]
    field that is present but empty is passed over for the [message] field. *)
Lemma failure_body_counterexamples :
  fst (_request
         (answering 500 "Internal Server Error" (Decoded (PyList [])))
         "GET" "/health" None anonymous) =
    Raise (AttributeError "'list' object has no attribute 'get'") /\
  fst (_request
         (answering 500 "Internal Server Error"
            (Decoded (PyDict [("error", PyStr EmptyString);
                              ("message", PyStr "boom")])))
         "GET" "/health" None anonymous) =
    Raise (Exception "API Error 500: boom").
Proof. split; reflexivity. Qed.

(** ** The configuration *)

Lemma invoke_keeps_client (net : Transport) (c : Call) (w : World) :
  client (snd (invoke net c w)) = client w.
Proof.
  destruct c; simpl;
    try (unfold search_shards, get_suggestions, get_trending_searches,
           get_popular_searches, get_search_analytics, get_search_filters,
           list_shards, get_api_info, health_check;
         now rewrite _request_world).
  - unfold get_shard, try_except.
    pose proof (_request_world net "GET" ("/api/v1/shards/" ++ name) None w)
      as Hw.
    destruct (_request _ _ _ _ _) as [[v|e] w']; cbn [snd] in Hw; subst w';
      [reflexivity|].
    unfold ret, raise. now destruct (contains "404" (exc_str e)).
  - unfold submit_shard, bind, get_self.
    destruct (negb (truthy (opt_str (api_key (client w))))); [reflexivity|].
    now rewrite _request_world.
Qed.

Lemma after_calls_keeps_client (net : Transport) (calls : list Call)
    (w : World) :
  client (after_calls net calls w) = client w.
Proof.
  unfold after_calls. revert w.
  induction calls as [|c calls IH]; intros w; simpl; [reflexivity|].
  rewrite IH. apply invoke_keeps_client.
Qed.

(** C8, as the code has it.  Construction strips every trailing slash of
    the base URL, stores the key, and sets the [Content-Type] and
    [User-Agent] headers, with [Authorization: Bearer <key>] exactly when the
    key is a non-empty string; no call, and no series of calls, changes the
    client. *)
Theorem configuration_fixed (base key : option string) :
  let c := __init__ base key in
  let hdrs := session_headers (session c) in
  (exists n, arg_or "https://api.crystalshards.org" base =
             base_url c ++ replicate n "/") /\
  (forall t, base_url c <> t ++ "/") /\
  api_key c = key /\
  lookup "Content-Type" hdrs = Some "application/json" /\
  lookup "User-Agent" hdrs = Some "CrystalShardsClient/1.0.0 (Python)" /\
  lookup "Authorization" hdrs =
    match key with
    | Some k => if String.eqb k EmptyString then None
                else Some ("Bearer " ++ k)
    | None => None
    end /\
  (forall net call w, client (snd (invoke net call w)) = client w) /\
  (forall net calls requests_so_far,
     client (after_calls net calls {| client := c; wire := requests_so_far |})
     = c).
Proof.
  cbv zeta. repeat split.
  - apply rstrip_tail.
  - intros t. apply rstrip_stripped.
  - destruct key as [k|]; simpl; [|reflexivity].
    destruct (String.eqb k EmptyString); reflexivity.
  - destruct key as [k|]; simpl; [|reflexivity].
    destruct (String.eqb k EmptyString); reflexivity.
  - destruct key as [k|]; simpl; [|reflexivity].
    destruct (String.eqb k EmptyString); reflexivity.
  - intros. apply invoke_keeps_client.
  - intros. now rewrite after_calls_keeps_client.
Qed.

(** C8 as stated fails at the empty key: a key was given, yet the headers
    hold no [Authorization]. *)
Lemma empty_key_gets_no_authorization :
  api_key (__init__ (Some "https://api.crystalshards.org/") (Some EmptyString))
    = Some EmptyString /\
  lookup "Authorization"
    (session_headers
       (session (__init__ (Some "https://api.crystalshards.org/")
                   (Some EmptyString)))) = None.
Proof. split; reflexivity. Qed.

(** ** Query strings *)

Lemma has_char_app (c : ascii) (s t : string) :
  has_char c (s ++ t) = has_char c s || has_char c t.
Proof.
  induction s as [|a s IH]; simpl; [reflexivity|].
  now rewrite IH, orb_assoc.
Qed.

Lemma quote_plus_byte_clean (a : ascii) :
  has_char "&" (Urllib.quote_plus_byte a) = false /\
  has_char "=" (Urllib.quote_plus_byte a) = false.
Proof.
  destruct a as [[] [] [] [] [] [] [] []]; split; vm_compute; reflexivity.
Qed.

Lemma quote_plus_clean (s : string) :
  has_char "&" (Urllib.quote_plus s) = false /\
  has_char "=" (Urllib.quote_plus s) = false.
Proof.
  induction s as [|a s [IH1 IH2]]; simpl; [now split|].
  destruct (quote_plus_byte_clean a) as [H1 H2].
  rewrite !has_char_app, H1, H2, IH1, IH2. now split.
Qed.

Lemma before_app (sep : ascii) (x rest : string) :
  has_char sep x = false -> before sep (x ++ String sep rest) = x.
Proof.
  induction x as [|a x IH]; simpl.
  - now rewrite Ascii.eqb_refl.
  - intros H. apply orb_false_iff in H as [Ha Hx].
    now rewrite Ha, (IH Hx).
Qed.

Lemma split_on_clean (sep : ascii) (x : string) :
  has_char sep x = false -> split_on sep x = [x].
Proof.
  induction x as [|a x IH]; simpl; [reflexivity|].
  intros H. apply orb_false_iff in H as [Ha Hx].
  now rewrite Ha, (IH Hx).
Qed.

Lemma split_on_app (sep : ascii) (x rest : string) :
  has_char sep x = false ->
  split_on sep (x ++ String sep rest) = x :: split_on sep rest.
Proof.
  induction x as [|a x IH]; simpl.
  - now rewrite Ascii.eqb_refl.
  - intros H. apply orb_false_iff in H as [Ha Hx].
    now rewrite Ha, (IH Hx).
Qed.

Lemma split_on_join (sep : ascii) (x : string) (l : list string) :
  (forall y, In y (x :: l) -> has_char sep y = false) ->
  split_on sep (join (String sep EmptyString) (x :: l)) = x :: l.
Proof.
  revert x. induction l as [|y l IH]; intros x H.
  - apply split_on_clean, H. now left.
  - change (join (String sep EmptyString) (x :: y :: l))
      with (x ++ String sep (join (String sep EmptyString) (y :: l))).
    rewrite split_on_app by (apply H; now left).
    rewrite IH; [reflexivity|]. intros z Hz. apply H. now right.
Qed.

Lemma join_nonempty (sep x : string) (l : list string) :
  x <> EmptyString -> join sep (x :: l) <> EmptyString.
Proof.
  intros Hx. destruct l as [|y l]; [exact Hx|].
  cbn [join]. destruct x; [now elim Hx | discriminate].
Qed.

(** The parameter names read back from an encoded query string are the
    encoded keys of the dict, in order. *)
Lemma query_keys_urlencode (params : dict pyval) :
  query_keys (Urllib.urlencode params) = map Urllib.quote_plus (keys params).
Proof.
  destruct params as [|p params]; [reflexivity|].
  unfold Urllib.urlencode, query_keys.
  set (item := fun kv : string * pyval =>
                 Urllib.quote_plus (fst kv) ++ "=" ++
                 Urllib.quote_plus (str (snd kv))).
  assert (Hne : join "&" (map item (p :: params)) <> EmptyString).
  { apply join_nonempty. unfold item.
    destruct (Urllib.quote_plus (fst p)); discriminate. }
  destruct (join "&" (map item (p :: params))) eqn:E; [now elim Hne|].
  rewrite <- E.
  change (map item (p :: params)) with (item p :: map item params).
  rewrite split_on_join.
  - change (item p :: map item params) with (map item (p :: params)).
    unfold keys. rewrite !map_map. apply map_ext. intros kv. unfold item.
    apply (before_app "=" _ (Urllib.quote_plus (str (snd kv)))).
    apply quote_plus_clean.
  - intros y Hy.
    change (item p :: map item params) with (map item (p :: params)) in Hy.
    apply in_map_iff in Hy as [kv [<- _]]. unfold item.
    rewrite !has_char_app.
    destruct (quote_plus_clean (fst kv)) as [-> _].
    destruct (quote_plus_clean (str (snd kv))) as [-> _]. reflexivity.
Qed.

Lemma keys_setitem {V : Type} (k k' : string) (v : V) (d : dict V) :
  In k' (keys (setitem k v d)) -> k' = k \/ In k' (keys d).
Proof.
  induction d as [|[k0 v0] d IH]; simpl.
  - intros [<-|[]]. now left.
  - destruct (String.eqb_spec k0 k) as [->|ne]; simpl.
    + intros [<-|H]; right; [now left | now right].
    + intros [<-|H]; [right; now left|].
      destruct (IH H) as [->|H']; [now left | right; now right].
Qed.

Lemma keys_setitem_keep {V : Type} (k k' : string) (v : V) (d : dict V) :
  In k' (keys d) -> In k' (keys (setitem k v d)).
Proof.
  induction d as [|[k0 v0] d IH]; simpl; [intros []|].
  destruct (String.eqb_spec k0 k) as [->|ne]; simpl.
  - trivial.
  - intros [<-|H]; [now left | right; now apply IH].
Qed.

Lemma keys_update {V : Type} (k : string) (d other : dict V) :
  In k (keys (update d other)) -> In k (keys d) \/ In k (keys other).
Proof.
  unfold update. revert d.
  induction other as [|[k0 v0] other IH]; intros d; simpl; [now left|].
  intros H. destruct (IH _ H) as [H'|H']; [|right; now right].
  destruct (keys_setitem _ _ _ _ H') as [->|H'']; [right; now left | now left].
Qed.

Lemma keys_update_keep {V : Type} (k : string) (d other : dict V) :
  In k (keys d) -> In k (keys (update d other)).
Proof.
  unfold update. revert d.
  induction other as [|[k0 v0] other IH]; intros d H; simpl; [exact H|].
  apply IH. now apply keys_setitem_keep.
Qed.

Lemma keys_filter (f : string * pyval -> bool) (k : string)
    (options : dict pyval) :
  In k (keys (filter f options)) ->
  exists v, In (k, v) options /\ f (k, v) = true.
Proof.
  unfold keys. intros H. apply in_map_iff in H as [[k' v] [E H]].
  simpl in E. subst k'. apply filter_In in H. now exists v.
Qed.

Lemma filter_all_none (options : dict pyval) :
  (forall kv, In kv options -> snd kv = PyNone) ->
  filter (fun kv => negb (is_none (snd kv))) options = [].
Proof.
  induction options as [|kv options IH]; intros H; simpl; [reflexivity|].
  rewrite (H kv) by now left. simpl. apply IH. intros kv' H'.
  apply H. now right.
Qed.

(** C3, as the code has it.  [search_shards] encodes the dict made of [q]
    and of the options that are not [None]: an option left at [None] adds no
    parameter, and with no option set the query string is [q=<value>], the
    value percent-encoded.  A parameter with a default in the signature is
    sent with that default when the caller leaves it out. *)
Theorem query_string_construction :
  (forall net w query options,
     let params := search_params query options in
     snd (search_shards net query options w) =
       sent w (prepare w "GET"
                 (base_url (client w) ++ "/api/v1/search?" ++
                  Urllib.urlencode params) None) /\
     query_keys (Urllib.urlencode params) =
       map Urllib.quote_plus (keys params) /\
     In "q" (keys params) /\
     (forall k, k <> "q" ->
                (forall v, In (k, v) options -> v = PyNone) ->
                ~ In k (keys params)) /\
     ((forall kv, In kv options -> snd kv = PyNone) ->
      Urllib.urlencode params = "q=" ++ Urllib.quote_plus query)) /\
  (forall net w query,
     snd (get_suggestions net query None w) =
       sent w (prepare w "GET"
                 (base_url (client w) ++ "/api/v1/search/suggestions?q=" ++
                  Urllib.quote_plus query ++ "&limit=10") None)) /\
  (forall net w,
     snd (get_trending_searches net None w) =
       sent w (prepare w "GET"
                 (base_url (client w) ++ "/api/v1/search/trending?limit=20")
                 None)) /\
  (forall net w,
     snd (get_popular_searches net None w) =
       sent w (prepare w "GET"
                 (base_url (client w) ++ "/api/v1/search/popular?limit=20")
                 None)) /\
  (forall net w,
     snd (get_search_analytics net None w) =
       sent w (prepare w "GET"
                 (base_url (client w) ++ "/api/v1/search/analytics?days=7")
                 None)) /\
  (forall net w,
     snd (list_shards net None None w) =
       sent w (prepare w "GET"
                 (base_url (client w) ++ "/api/v1/shards?page=1&per_page=20")
                 None)).
Proof.
  split; [|repeat split; intros; apply _request_world].
  intros net w query options params. repeat split.
  - apply _request_world.
  - apply query_keys_urlencode.
  - apply keys_update_keep. now left.
  - intros k Hk Hnone Hin.
    destruct (keys_update _ _ _ Hin) as [[E|[]]|Hf]; [now elim Hk|].
    apply keys_filter in Hf as [v [Hv Hf]].
    rewrite (Hnone v Hv) in Hf. discriminate.
  - intros Hall. unfold params, search_params.
    now rewrite (filter_all_none options Hall).
Qed.

Lemma query_string_construction_witness :
  ~ In "sort_by"
      (keys (search_params "web framework"
               [("sort_by", PyNone); ("per_page", PyInt 5)])) /\
  Urllib.urlencode (search_params "web framework" [("sort_by", PyNone)]) =
    "q=web+framework".
Proof.
  destruct query_string_construction as [H _]. split.
  - destruct (H (unreachable "down") anonymous "web framework"
                [("sort_by", PyNone); ("per_page", PyInt 5)])
      as (_ & _ & _ & Hk & _).
    apply Hk; [discriminate|].
    intros v [E|[E|[]]]; now inversion E.
  - destruct (H (unreachable "down") anonymous "web framework"
                [("sort_by", PyNone)]) as (_ & _ & _ & _ & Hq).
    apply Hq. intros kv [<-|[]]. reflexivity.
Defined.

(** C3 as stated fails for a parameter that has a default: with [limit]
    left out, [get_trending_searches] still puts [limit] in the query
    string, with the default 20. *)
Lemma trending_sends_default_limit :
  map (fun rq => query_string (url rq))
    (wire (snd (get_trending_searches
                  (answering 200 "OK" (Decoded (PyDict []))) None anonymous)))
    = [Some "limit=20"] /\
  query_keys "limit=20" = ["limit"].
Proof. split; reflexivity. Qed.

Lemma configuration_fixed_witness :
  base_url (__init__ (Some "http://localhost:3000//") (Some "secret")) =
    "http://localhost:3000" /\
  lookup "Authorization"
    (session_headers
       (session (__init__ (Some "http://localhost:3000//") (Some "secret"))))
    = Some "Bearer secret" /\
  client
    (after_calls (answering 200 "OK" (Decoded health_ok))
       [HealthCheck; GetShard "kemal"; SubmitShard "https://github.com/u/r"]
       {| client := __init__ (Some "http://localhost:3000//") (Some "secret");
          wire := [] |})
    = __init__ (Some "http://localhost:3000//") (Some "secret").
Proof.
  pose proof (configuration_fixed (Some "http://localhost:3000//")
                (Some "secret")) as H.
  cbv zeta in H. destruct H as (_ & _ & _ & _ & _ & Ha & _ & Hc).
  split; [reflexivity|]. split; [exact Ha|]. apply Hc.
Defined.

(** * Further properties of the client *)

(** ** What [_request] can end in *)

(** X1.  No exception of the [requests] library leaves [_request]: what it
    raises is a plain [Exception] whose text starts with [API Error ] or
    with [Request failed: ], or the [AttributeError] of a failed [.get]. *)
Theorem request_raises_only_plain_errors (net : Transport)
    (method endpoint : string) (kwargs : option pyval) (w : World)
    (e : PyExc) :
  fst (_request net method endpoint kwargs w) = Raise e ->
  is_RequestException e = false /\
  ((exists msg, e = Exception msg /\
                (startswith "API Error " msg = true \/
                 startswith "Request failed: " msg = true)) \/
   (exists msg, e = AttributeError msg)).
Proof.
  step_request.
  destruct (net _ _) as [r|why]; simpl.
  - destruct (raise_for_status r); simpl.
    + destruct (body r) as [[]|]; simpl;
        repeat match goal with
               | |- context [truthy ?v] => destruct (truthy v); simpl
               end;
        intros H; inversion H; subst; split; try reflexivity;
        solve [ right; eauto
              | left; eexists; split;
                [reflexivity | left; apply (prefix_app "API Error ")] ].
    + destruct (body r); simpl; intros H; inversion H; subst.
      split; [reflexivity|]. left. eexists. split; [reflexivity|].
      right. apply (prefix_app "Request failed: ").
  - intros H. inversion H; subst. split; [reflexivity|].
    left. eexists. split; [reflexivity|].
    right. apply (prefix_app "Request failed: ").
Qed.

Lemma request_raises_only_plain_errors_witness :
  fst (_request (answering 502 "Bad Gateway" (Undecodable "Expecting value"))
         "GET" "/health" None anonymous) =
    Raise (Exception
             "API Error 502: 502 Server Error: Bad Gateway for url: https://api.crystalshards.org/health") /\
  is_RequestException
    (Exception
       "API Error 502: 502 Server Error: Bad Gateway for url: https://api.crystalshards.org/health")
    = false.
Proof.
  split; [reflexivity|].
  apply (request_raises_only_plain_errors
           (answering 502 "Bad Gateway" (Undecodable "Expecting value"))
           "GET" "/health" None anonymous).
  reflexivity.
Defined.

(** X2.  Only a status from 400 to 599 is an error for [_request]: with any
    other status, a 304 or a 302 as much as a 200, the decoded body is
    returned. *)
Theorem other_statuses_return_the_body (net : Transport) (w : World)
    (method endpoint : string) (kwargs : option pyval) (r : Response)
    (v : pyval) :
  net (wire w) (prepare w method (base_url (client w) ++ endpoint) kwargs)
    = Answered r ->
  status_code r < 400 \/ 600 <= status_code r ->
  body r = Decoded v ->
  _request net method endpoint kwargs w =
  (Return v,
   sent w (prepare w method (base_url (client w) ++ endpoint) kwargs)).
Proof.
  intros H Hs Hb.
  rewrite (surjective_pairing (_request _ _ _ _ _)), _request_world.
  rewrite (_request_quiet _ _ _ _ _ _ v H); trivial.
  apply raise_for_status_quiet. lia.
Qed.

Lemma other_statuses_return_the_body_witness :
  _request (answering 302 "Found" (Decoded (PyDict [("moved", PyBool true)])))
    "GET" "/api/v1" None anonymous =
  (Return (PyDict [("moved", PyBool true)]),
   sent anonymous
     (prepare anonymous "GET" "https://api.crystalshards.org/api/v1" None)).
Proof.
  apply (other_statuses_return_the_body
           (answering 302 "Found" (Decoded (PyDict [("moved", PyBool true)])))
           anonymous "GET" "/api/v1" None
           {| status_code := 302; reason := "Found";
              response_url := "https://api.crystalshards.org/api/v1";
              body := Decoded (PyDict [("moved", PyBool true)]) |});
    [reflexivity | left; simpl; lia | reflexivity].
Defined.

(** X3.  When the status is no error but the body is no JSON, [_request]
    reports the decoding error as a failed request:
    [Exception("Request failed: <decoder's message>")]. *)
Theorem undecodable_body_is_a_failed_request (net : Transport) (w : World)
    (method endpoint : string) (kwargs : option pyval) (r : Response)
    (why : string) :
  net (wire w) (prepare w method (base_url (client w) ++ endpoint) kwargs)
    = Answered r ->
  status_code r < 400 \/ 600 <= status_code r ->
  body r = Undecodable why ->
  _request net method endpoint kwargs w =
  (Raise (Exception ("Request failed: " ++ why)),
   sent w (prepare w method (base_url (client w) ++ endpoint) kwargs)).
Proof.
  intros H Hs Hb.
  rewrite (surjective_pairing (_request _ _ _ _ _)), _request_world.
  f_equal. step_request. rewrite H. simpl.
  rewrite raise_for_status_quiet by lia. simpl. now rewrite Hb.
Qed.

Lemma undecodable_body_is_a_failed_request_witness :
  _request (answering 200 "OK" (Undecodable "Expecting value"))
    "GET" "/health" None anonymous =
  (Raise (Exception "Request failed: Expecting value"),
   sent anonymous
     (prepare anonymous "GET" "https://api.crystalshards.org/health" None)).
Proof.
  apply (undecodable_body_is_a_failed_request
           (answering 200 "OK" (Undecodable "Expecting value"))
           anonymous "GET" "/health" None
           {| status_code := 200; reason := "OK";
              response_url := "https://api.crystalshards.org/health";
              body := Undecodable "Expecting value" |});
    [reflexivity | left; simpl; lia | reflexivity].
Defined.

(** X4.  On a 4xx or 5xx answer whose body is JSON but no object (an array,
    a string, a number, [true], [null]), [_request] ends in the
    [AttributeError] of [error_data.get], naming the type of the body; no
    API error is built. *)
Theorem error_status_with_non_object_body (net : Transport) (w : World)
    (method endpoint : string) (kwargs : option pyval) (r : Response)
    (v : pyval) :
  net (wire w) (prepare w method (base_url (client w) ++ endpoint) kwargs)
    = Answered r ->
  400 <= status_code r < 600 ->
  body r = Decoded v ->
  (forall d, v <> PyDict d) ->
  _request net method endpoint kwargs w =
  (Raise (AttributeError
            ("'" ++ type_name v ++ "' object has no attribute 'get'")),
   sent w (prepare w method (base_url (client w) ++ endpoint) kwargs)).
Proof.
  intros H Hs Hb Hv.
  rewrite (surjective_pairing (_request _ _ _ _ _)), _request_world.
  rewrite (_request_not_an_object _ _ _ _ _ _ v H Hs Hb); [reflexivity|].
  unfold object_or_undecodable. rewrite Hb.
  destruct v; try reflexivity. now elim (Hv entries).
Qed.

Lemma error_status_with_non_object_body_witness :
  _request (answering 404 "Not Found" (Decoded (PyStr "no such shard")))
    "GET" "/api/v1/shards/x" None anonymous =
  (Raise (AttributeError "'str' object has no attribute 'get'"),
   sent anonymous
     (prepare anonymous "GET" "https://api.crystalshards.org/api/v1/shards/x"
        None)).
Proof.
  apply (error_status_with_non_object_body
           (answering 404 "Not Found" (Decoded (PyStr "no such shard")))
           anonymous "GET" "/api/v1/shards/x" None
           {| status_code := 404; reason := "Not Found";
              response_url := "https://api.crystalshards.org/api/v1/shards/x";
              body := Decoded (PyStr "no such shard") |}
           (PyStr "no such shard"));
    [reflexivity | simpl; lia | reflexivity | discriminate].
Defined.

(** ** Requests on the wire *)

Lemma get_shard_world (net : Transport) (name : string) (w : World) :
  snd (get_shard net name w) =
  sent w (prepare w "GET" (base_url (client w) ++ "/api/v1/shards/" ++ name)
            None).
Proof.
  unfold get_shard, try_except.
  pose proof (_request_world net "GET" ("/api/v1/shards/" ++ name) None w)
    as Hw.
  destruct (_request _ _ _ _ _) as [[v|e] w']; cbn [snd] in Hw; subst w';
    [reflexivity|].
  unfold ret, raise. now destruct (contains "404" (exc_str e)).
Qed.

(** A call leaves the world alone or hands one request to the session. *)
Lemma invoke_world (net : Transport) (c : Call) (w : World) :
  snd (invoke net c w) = w \/
  exists method endpoint kwargs,
    snd (invoke net c w) =
    sent w (prepare w method (base_url (client w) ++ endpoint) kwargs).
Proof.
  destruct c; simpl;
    try (right; do 3 eexists; apply _request_world).
  - right. do 3 eexists. apply get_shard_world.
  - unfold submit_shard, bind, get_self.
    destruct (negb (truthy (opt_str (api_key (client w))))); [now left|].
    right. do 3 eexists. apply _request_world.
Qed.

(** X5.  A call that gets past the key test of [submit_shard] hands exactly
    one request to the session, whatever the answer: it carries the
    session's headers, its URL extends the client's base URL, and only
    [submit_shard] uses [POST] and sends a body, [{'github_url': <url>}]. *)
Theorem one_request_per_call (net : Transport) (c : Call) (w : World) :
  (forall u, c = SubmitShard u ->
             truthy (opt_str (api_key (client w))) = true) ->
  exists rq,
    snd (invoke net c w) = sent w rq /\
    headers rq = session_headers (session (client w)) /\
    startswith (base_url (client w)) (url rq) = true /\
    method rq = match c with SubmitShard _ => "POST" | _ => "GET" end /\
    json rq = match c with
              | SubmitShard u => Some (PyDict [("github_url", PyStr u)])
              | _ => None
              end.
Proof.
  intros Hk.
  destruct c; simpl;
    try (eexists; split; [apply _request_world|];
         repeat split; apply prefix_app).
  - eexists. split; [apply get_shard_world|]. repeat split. apply prefix_app.
  - unfold submit_shard, bind, get_self. rewrite (Hk _ eq_refl). simpl.
    eexists. split; [apply _request_world|]. repeat split. apply prefix_app.
Qed.

Lemma one_request_per_call_witness :
  exists rq,
    snd (invoke (unreachable "Connection refused")
           (SubmitShard "https://github.com/user/repo") keyed) =
      sent keyed rq /\
    method rq = "POST" /\
    url rq = "https://api.crystalshards.org/api/v1/shards" /\
    lookup "Authorization" (headers rq) = Some "Bearer secret".
Proof.
  destruct (one_request_per_call (unreachable "Connection refused")
              (SubmitShard "https://github.com/user/repo") keyed)
    as (rq & Hw & Hh & _ & Hm & _); [reflexivity|].
  exists rq. repeat split; trivial.
  - apply (f_equal wire) in Hw. simpl in Hw. injection Hw as <-. reflexivity.
  - now rewrite Hh.
Defined.

(** X6.  No call touches the requests made before it, and a series of calls
    makes at most one request per call: nothing is retried, nothing is
    batched. *)
Theorem wire_only_grows (net : Transport) (calls : list Call) (w : World) :
  exists more,
    wire (after_calls net calls w) = (wire w ++ more)%list /\
    (length more <= length calls)%nat.
Proof.
  unfold after_calls. revert w.
  induction calls as [|c calls IH]; intros w; simpl.
  - exists []. now rewrite app_nil_r.
  - destruct (IH (snd (invoke net c w))) as (more & -> & Hl).
    destruct (invoke_world net c w) as [->|(m & e & k & ->)].
    + exists more. split; [reflexivity | lia].
    + eexists (_ :: more). simpl. rewrite <- app_assoc. simpl.
      split; [reflexivity | lia].
Qed.

Lemma after_calls_headers (net : Transport) (calls : list Call) (w : World) :
  (forall rq, In rq (wire w) ->
              headers rq = session_headers (session (client w))) ->
  forall rq, In rq (wire (after_calls net calls w)) ->
             headers rq = session_headers (session (client w)).
Proof.
  unfold after_calls. revert w.
  induction calls as [|c calls IH]; intros w Hw; simpl; [exact Hw|].
  intros rq Hin. rewrite <- (invoke_keeps_client net c w).
  apply (IH (snd (invoke net c w))); [|exact Hin].
  intros rq' Hin'. rewrite invoke_keeps_client.
  destruct (invoke_world net c w) as [E|(m & e & k & E)]; rewrite E in Hin'.
  - now apply Hw.
  - simpl in Hin'. apply in_app_iff in Hin' as [H|[<-|[]]];
      [now apply Hw | reflexivity].
Qed.

(** X7.  Every request a client makes over any series of calls carries the
    headers fixed by [__init__]: the JSON content type, the client's user
    agent, and [Authorization: Bearer <key>] exactly when the key is a
    non-empty string. *)
Theorem headers_on_every_request (net : Transport) (base key : option string)
    (calls : list Call) (rq : Request) :
  In rq (wire (after_calls net calls
                 {| client := __init__ base key; wire := [] |})) ->
  lookup "Content-Type" (headers rq) = Some "application/json" /\
  lookup "User-Agent" (headers rq) = Some "CrystalShardsClient/1.0.0 (Python)" /\
  lookup "Authorization" (headers rq) =
    match key with
    | Some k => if String.eqb k EmptyString then None
                else Some ("Bearer " ++ k)
    | None => None
    end.
Proof.
  intros Hin.
  rewrite (after_calls_headers net calls
             {| client := __init__ base key; wire := [] |})
    by (trivial; intros ? []).
  destruct key as [k|]; simpl; [|now repeat split].
  destruct (String.eqb k EmptyString); now repeat split.
Qed.

Lemma headers_on_every_request_witness :
  lookup "Authorization"
    (headers (prepare keyed "GET" "https://api.crystalshards.org/health" None))
  = Some "Bearer secret".
Proof.
  apply (headers_on_every_request (unreachable "Connection refused")
           None (Some "secret") [GetApiInfo; HealthCheck]).
  right. left. reflexivity.
Defined.

(** ** The base URL *)

Lemma rstrip_all (c : ascii) (n : nat) :
  rstrip c (replicate n c) = EmptyString.
Proof.
  induction n as [|n IH]; simpl; [reflexivity|].
  now rewrite IH, Ascii.eqb_refl.
Qed.

Lemma rstrip_app_tail (c : ascii) (s : string) (n : nat) :
  rstrip c (s ++ replicate n c) = rstrip c s.
Proof.
  induction s as [|a s IH]; simpl; [apply rstrip_all | now rewrite IH].
Qed.

(** X8.  Base URLs that differ only in trailing slashes give the same
    client, stripping is idempotent, and a base URL made of slashes alone
    becomes the empty string. *)
Theorem trailing_slashes_do_not_matter (u : string) (n : nat)
    (key : option string) :
  __init__ (Some (u ++ replicate n "/")) key = __init__ (Some u) key /\
  __init__ (Some (base_url (__init__ (Some u) key))) key =
    __init__ (Some u) key /\
  base_url (__init__ (Some (replicate n "/")) key) = EmptyString.
Proof.
  unfold __init__. cbn [arg_or base_url]. repeat split.
  - now rewrite rstrip_app_tail.
  - destruct (rstrip_tail "/" u) as [m E].
    rewrite E at 2. now rewrite rstrip_app_tail.
  - apply rstrip_all.
Qed.

(** ** [get_shard] and the text of errors *)

Lemma prefix_weaken (p s t : string) :
  String.prefix p s = true -> String.prefix p (s ++ t) = true.
Proof.
  revert s. induction p as [|a p IH]; intros s; simpl.
  - now destruct (s ++ t).
  - destruct s as [|b s]; simpl; [discriminate|].
    destruct (ascii_dec a b); [apply IH | discriminate].
Qed.

Lemma contains_weaken (sub s t : string) :
  contains sub s = true -> contains sub (s ++ t) = true.
Proof.
  induction s as [|a s IH]; intros H; cbn [contains] in H.
  - destruct (String.prefix sub EmptyString) eqn:E; [|discriminate].
    apply contains_here. now apply (prefix_weaken sub EmptyString).
  - destruct (String.prefix sub (String a s)) eqn:E.
    + apply contains_here. now apply (prefix_weaken sub (String a s)).
    + change (String a s ++ t) with (String a (s ++ t)).
      apply contains_later. now apply IH.
Qed.

Lemma append_nil_r (s : string) : s ++ EmptyString = s.
Proof. induction s; simpl; congruence. Qed.

Lemma contains_inside (sub pre s post : string) :
  contains sub s = true -> contains sub (pre ++ s ++ post) = true.
Proof.
  intros H. induction pre as [|a pre IH]; cbn [append].
  - now apply contains_weaken.
  - now apply contains_later.
Qed.

(** X9.  [get_shard] applies its [404] test to transport failures as well:
    when no response is obtained and the text of the failure has [404] in
    it (a port 4040, say), the caller gets [None]; otherwise the
    [Request failed] error. *)
Theorem get_shard_swallows_transport_failure (net : Transport)
    (name : string) (w : World) (why : string) :
  net (wire w)
      (prepare w "GET" (base_url (client w) ++ "/api/v1/shards/" ++ name) None)
    = NoResponse why ->
  fst (get_shard net name w) =
    (if contains "404" ("Request failed: " ++ why) then Return PyNone
     else Raise (Exception ("Request failed: " ++ why))) /\
  (contains "404" why = true -> fst (get_shard net name w) = Return PyNone).
Proof.
  intros H.
  pose proof (_request_no_response _ _ _ _ _ _ H) as Hf.
  assert (E : fst (get_shard net name w) =
              if contains "404" ("Request failed: " ++ why)
              then Return PyNone
              else Raise (Exception ("Request failed: " ++ why))).
  { unfold get_shard, try_except.
    destruct (_request _ _ _ _ _) as [res w']; cbn [fst] in Hf. subst res.
    cbn [exc_str]. unfold ret, raise.
    now destruct (contains "404" ("Request failed: " ++ why)). }
  split; [exact E|]. intros Hc. rewrite E.
  replace ("Request failed: " ++ why)
    with ("Request failed: " ++ why ++ EmptyString)
    by now rewrite append_nil_r.
  now rewrite (contains_inside "404" "Request failed: " why EmptyString Hc).
Qed.

Lemma get_shard_swallows_transport_failure_witness :
  fst (get_shard
         (unreachable
            "HTTPConnectionPool(host='localhost', port=4040): Max retries exceeded")
         "kemal"
         {| client := __init__ (Some "http://localhost:4040") None;
            wire := [] |}) = Return PyNone.
Proof.
  apply (get_shard_swallows_transport_failure
           (unreachable
              "HTTPConnectionPool(host='localhost', port=4040): Max retries exceeded")
           "kemal"
           {| client := __init__ (Some "http://localhost:4040") None;
              wire := [] |}
           "HTTPConnectionPool(host='localhost', port=4040): Max retries exceeded");
    reflexivity.
Defined.




(** X12.  [get_shard] puts the name into the path as it is, without
    percent-encoding: whatever follows a [?] in the name reaches the service
    as the query string of the request. *)
Theorem get_shard_does_not_encode_the_name (net : Transport) (w : World)
    (n q : string) :
  has_char "?" (base_url (client w)) = false ->
  has_char "?" n = false ->
  exists rq,
    snd (get_shard net (n ++ "?" ++ q) w) = sent w rq /\
    url rq = base_url (client w) ++ "/api/v1/shards/" ++ n ++ "?" ++ q /\
    query_string (url rq) = Some q.
Proof.
  intros Hb Hn. eexists. split; [apply get_shard_world|].
  split; [reflexivity|]. cbn [url prepare].
  assert (Hq : forall a, has_char "?" a = false ->
                         query_string (a ++ String "?" q) = Some q).
  { induction a as [|x a IH]; simpl; [reflexivity|].
    intros H. apply orb_false_iff in H as [Hx Ha]. now rewrite Hx, (IH Ha). }
  replace (base_url (client w) ++ "/api/v1/shards/" ++ n ++ "?" ++ q)
    with ((base_url (client w) ++ "/api/v1/shards/" ++ n) ++ String "?" q)
    by now rewrite !append_assoc.
  apply Hq. now rewrite !has_char_app, Hb, Hn.
Qed.

Lemma get_shard_does_not_encode_the_name_witness :
  exists rq,
    snd (get_shard (unreachable "down") ("kemal" ++ "?" ++ "admin=1")
           anonymous) = sent anonymous rq /\
    url rq = "https://api.crystalshards.org/api/v1/shards/kemal?admin=1" /\
    query_string (url rq) = Some "admin=1".
Proof.
  apply (get_shard_does_not_encode_the_name (unreachable "down") anonymous
           "kemal" "admin=1"); reflexivity.
Defined.

(** ** The options of [search_shards] *)

Lemma lookup_setitem_same {V : Type} (k : string) (v : V) (d : dict V) :
  lookup k (setitem k v d) = Some v.
Proof.
  induction d as [|[k0 v0] d IH]; simpl.
  - now rewrite String.eqb_refl.
  - destruct (String.eqb k0 k) eqn:E; simpl; now rewrite E.
Qed.

Lemma lookup_setitem_other {V : Type} (k k' : string) (v : V) (d : dict V) :
  k' <> k -> lookup k' (setitem k v d) = lookup k' d.
Proof.
  intros ne. induction d as [|[k0 v0] d IH]; simpl.
  - destruct (String.eqb_spec k k'); [now elim ne | reflexivity].
  - destruct (String.eqb_spec k0 k) as [->|ne0]; simpl.
    + destruct (String.eqb_spec k k'); [now elim ne | reflexivity].
    + now rewrite IH.
Qed.

Lemma lookup_update_absent {V : Type} (k : string) (d other : dict V) :
  ~ In k (keys other) -> lookup k (update d other) = lookup k d.
Proof.
  unfold update. revert d.
  induction other as [|[k0 v0] other IH]; intros d H; simpl; [reflexivity|].
  rewrite IH by (intros F; apply H; now right).
  apply lookup_setitem_other. intros ->. apply H. now left.
Qed.

Lemma lookup_update_present {V : Type} (k : string) (v : V)
    (d other : dict V) :
  NoDup (keys other) -> In (k, v) other ->
  lookup k (update d other) = Some v.
Proof.
  unfold update. revert d.
  induction other as [|[k0 v0] other IH]; intros d Hnd Hin; [elim Hin|].
  simpl in Hnd. inversion Hnd as [|? ? Hk Hnd']; subst.
  destruct Hin as [E|Hin]; simpl.
  - inversion E; subst.
    pose proof (lookup_update_absent k (setitem k v d) other Hk) as Ha.
    unfold update in Ha. rewrite Ha. apply lookup_setitem_same.
  - now apply IH.
Qed.

Lemma NoDup_keys_filter {V : Type} (f : string * V -> bool) (d : dict V) :
  NoDup (keys d) -> NoDup (keys (filter f d)).
Proof.
  induction d as [|[k v] d IH]; simpl; intros H; [constructor|].
  inversion H as [|? ? Hk Hd]; subst.
  destruct (f (k, v)); simpl; [|now apply IH].
  constructor; [|now apply IH].
  intros F. apply Hk. unfold keys in *. apply in_map_iff in F as [kv [E F]].
  apply filter_In in F as [F _]. apply in_map_iff. now exists kv.
Qed.

Lemma update_keeps_first {V : Type} (k : string) (v : V) (d other : dict V) :
  exists v' rest, update ((k, v) :: d) other = (k, v') :: rest.
Proof.
  unfold update. revert v d.
  induction other as [|[k0 v0] other IH]; intros v d; simpl; [eauto|].
  destruct (String.eqb k k0); apply IH.
Qed.

(** X11.  The options of a search are a dict; each option that is not
    [None] reaches the query with its own value, an option named [q]
    included, which then replaces the query text; without such an option
    [q] is the query text; and [q] is always the first parameter. *)
Theorem search_options_reach_the_query (query : string)
    (options : dict pyval) :
  NoDup (keys options) ->
  (forall k v, In (k, v) options -> v <> PyNone ->
               lookup k (search_params query options) = Some v) /\
  ((forall v, In ("q", v) options -> v = PyNone) ->
   lookup "q" (search_params query options) = Some (PyStr query)) /\
  (exists v rest, search_params query options = ("q", v) :: rest).
Proof.
  intros Hnd. unfold search_params. repeat split.
  - intros k v Hin Hv. apply lookup_update_present.
    + now apply NoDup_keys_filter.
    + apply filter_In. split; [exact Hin|]. simpl. now destruct v.
  - intros Hq. rewrite lookup_update_absent; [reflexivity|].
    intros F. apply keys_filter in F as [v [Hin Hf]].
    rewrite (Hq v Hin) in Hf. discriminate.
  - apply update_keeps_first.
Qed.

Lemma search_options_reach_the_query_witness :
  lookup "q"
    (search_params "web framework"
       [("q", PyStr "orm"); ("sort_by", PyNone); ("per_page", PyInt 5)])
  = Some (PyStr "orm").
Proof.
  assert (Hnd : NoDup (keys [("q", PyStr "orm"); ("sort_by", PyNone);
                             ("per_page", PyInt 5)])).
  { repeat constructor; simpl; intuition discriminate. }
  destruct (search_options_reach_the_query "web framework" _ Hnd)
    as [H _].
  apply H; [now left | discriminate].
Defined.

(** ** The asynchronous client *)

(** The request [CrystalShardsAsync._request] makes. *)
Lemma async_request_world (net : Transport) (self : Async.CrystalShardsAsync)
    (method endpoint : string) (kwargs : option pyval)
    (requests_so_far : list Request) :
  snd (Async._request true net self method endpoint kwargs requests_so_far) =
  (requests_so_far ++
   [{| method := method; url := Async.base_url self ++ endpoint;
       headers := Async.request_headers self; json := kwargs |}])%list.
Proof.
  unfold Async._request. simpl. now destruct (net _ _).
Qed.

Lemma async_not_ok (net : Transport) (self : Async.CrystalShardsAsync)
    (method endpoint : string) (kwargs : option pyval)
    (requests_so_far : list Request) (r : Response) :
  net requests_so_far
      {| method := method; url := Async.base_url self ++ endpoint;
         headers := Async.request_headers self; json := kwargs |}
    = Answered r ->
  400 <= status_code r ->
  object_or_undecodable r = true ->
  fst (Async._request true net self method endpoint kwargs requests_so_far) =
  Async.Failed
    (Async.Py
       (Exception
          ("API Error " ++ str_int (status_code r) ++ ": " ++
           (if truthy (body_field "error" r) then str (body_field "error" r)
            else if truthy (body_field "message" r)
                 then str (body_field "message" r)
                 else "HTTP " ++ str_int (status_code r))))).
Proof.
  intros H Hs Hb. unfold Async._request. cbn [negb]. cbv zeta. rewrite H.
  cbn [fst]. unfold Async.ok.
  destruct (Z.ltb_spec (status_code r) 400); [lia|]. cbn [negb].
  unfold Async.not_ok_error, body_field, object_or_undecodable in *.
  destruct (body r) as [[]|]; try discriminate; simpl.
  - destruct (truthy (arg_or PyNone (lookup "error" entries)));
      [reflexivity|].
    destruct (truthy (arg_or PyNone (lookup "message" entries)));
      reflexivity.
  - reflexivity.
Qed.


(** X13.  The asynchronous [_request] treats every status from 400 up as
    an error.  When the body is no JSON or a JSON object it makes its one
    request and raises [Exception("API Error <status>: <message>")], the
    message being the [error] field when it is true in Python's sense, else
    the [message] field when it is, else [HTTP <status>]. *)
Theorem async_error_text (net : Transport) (self : Async.CrystalShardsAsync)
    (method endpoint : string) (kwargs : option pyval)
    (requests_so_far : list Request) (r : Response) :
  net requests_so_far
      {| method := method; url := Async.base_url self ++ endpoint;
         headers := Async.request_headers self; json := kwargs |}
    = Answered r ->
  400 <= status_code r ->
  object_or_undecodable r = true ->
  Async._request true net self method endpoint kwargs requests_so_far =
  (Async.Failed
     (Async.Py
        (Exception
           ("API Error " ++ str_int (status_code r) ++ ": " ++
            (if truthy (body_field "error" r) then str (body_field "error" r)
             else if truthy (body_field "message" r)
                  then str (body_field "message" r)
                  else "HTTP " ++ str_int (status_code r))))),
   (requests_so_far ++
    [{| method := method; url := Async.base_url self ++ endpoint;
        headers := Async.request_headers self; json := kwargs |}])%list).
Proof.
  intros H Hs Hb.
  rewrite (surjective_pairing (Async._request _ _ _ _ _ _ _)).
  now rewrite async_request_world, (async_not_ok _ _ _ _ _ _ _ H Hs Hb).
Qed.

Lemma async_error_text_witness :
  Async._request true
    (answering 429 "Too Many Requests" (Undecodable "empty"))
    (Async.__init__ None None) "GET" "/health" None [] =
  (Async.Failed (Async.Py (Exception "API Error 429: HTTP 429")),
   [{| method := "GET"; url := "https://api.crystalshards.org/health";
       headers := Async.request_headers (Async.__init__ None None);
       json := None |}]).
Proof.
  apply (async_error_text
           (answering 429 "Too Many Requests" (Undecodable "empty"))
           (Async.__init__ None None) "GET" "/health" None []
           {| status_code := 429; reason := "Too Many Requests";
              response_url := "https://api.crystalshards.org/health";
              body := Undecodable "empty" |});
    [reflexivity | simpl; lia | reflexivity].
Defined.

(** X14.  For a 4xx or 5xx answer that brings a usable [error] or [message]
    field, the two clients raise an [Exception] with the same text. *)
Theorem clients_agree_on_service_messages (net net' : Transport) (w : World)
    (self : Async.CrystalShardsAsync) (method endpoint : string)
    (kwargs : option pyval) (requests_so_far : list Request) (r : Response) :
  net (wire w) (prepare w method (base_url (client w) ++ endpoint) kwargs)
    = Answered r ->
  net' requests_so_far
       {| method := method; url := Async.base_url self ++ endpoint;
          headers := Async.request_headers self; json := kwargs |}
    = Answered r ->
  400 <= status_code r < 600 ->
  object_or_undecodable r = true ->
  truthy (body_field "error" r) = true \/
  truthy (body_field "message" r) = true ->
  exists text,
    fst (_request net method endpoint kwargs w) = Raise (Exception text) /\
    fst (Async._request true net' self method endpoint kwargs requests_so_far)
      = Async.Failed (Async.Py (Exception text)).
Proof.
  intros H H' Hs Hb Hf. eexists. split.
  - apply (_request_http_error _ _ _ _ _ _ H Hs Hb).
  - rewrite (async_not_ok _ _ _ _ _ _ _ H'); [|lia|exact Hb].
    unfold error_text, resolved_message.
    destruct (truthy (body_field "error" r)); [reflexivity|].
    destruct (truthy (body_field "message" r)); [reflexivity|].
    destruct Hf; discriminate.
Qed.

Lemma clients_agree_on_service_messages_witness :
  exists text,
    fst (_request
           (answering 401 "Unauthorized"
              (Decoded (PyDict [("error", PyStr "invalid token")])))
           "POST" "/api/v1/shards" None keyed) = Raise (Exception text) /\
    fst (Async._request true
           (answering 401 "Unauthorized"
              (Decoded (PyDict [("error", PyStr "invalid token")])))
           (Async.__init__ None (Some "secret")) "POST" "/api/v1/shards" None
           []) = Async.Failed (Async.Py (Exception text)).
Proof.
  apply (clients_agree_on_service_messages
           (answering 401 "Unauthorized"
              (Decoded (PyDict [("error", PyStr "invalid token")])))
           (answering 401 "Unauthorized"
              (Decoded (PyDict [("error", PyStr "invalid token")])))
           keyed (Async.__init__ None (Some "secret"))
           "POST" "/api/v1/shards" None []
           {| status_code := 401; reason := "Unauthorized";
              response_url := "https://api.crystalshards.org/api/v1/shards";
              body := Decoded (PyDict [("error", PyStr "invalid token")]) |});
    [reflexivity | reflexivity | simpl; lia | reflexivity | now left].
Defined.

(** X15.  The two clients part on a status of 600 or more: the synchronous
    [_request] returns the decoded body, the asynchronous one raises an API
    error. *)
Theorem clients_differ_from_600 (net net' : Transport) (w : World)
    (self : Async.CrystalShardsAsync) (method endpoint : string)
    (kwargs : option pyval) (requests_so_far : list Request) (r : Response)
    (d : dict pyval) :
  net (wire w) (prepare w method (base_url (client w) ++ endpoint) kwargs)
    = Answered r ->
  net' requests_so_far
       {| method := method; url := Async.base_url self ++ endpoint;
          headers := Async.request_headers self; json := kwargs |}
    = Answered r ->
  600 <= status_code r ->
  body r = Decoded (PyDict d) ->
  fst (_request net method endpoint kwargs w) = Return (PyDict d) /\
  exists msg,
    fst (Async._request true net' self method endpoint kwargs requests_so_far)
      = Async.Failed
          (Async.Py (Exception ("API Error " ++ str_int (status_code r) ++
                                ": " ++ msg))).
Proof.
  intros H H' Hs Hb. split.
  - apply (_request_quiet _ _ _ _ _ _ _ H); [|exact Hb].
    apply raise_for_status_quiet. lia.
  - eexists. apply (async_not_ok _ _ _ _ _ _ _ H'); [lia|].
    unfold object_or_undecodable. now rewrite Hb.
Qed.

Lemma clients_differ_from_600_witness :
  fst (_request (answering 600 "Odd" (Decoded (PyDict [])))
         "GET" "/health" None anonymous) = Return (PyDict []) /\
  exists msg,
    fst (Async._request true (answering 600 "Odd" (Decoded (PyDict [])))
           (Async.__init__ None None) "GET" "/health" None [])
      = Async.Failed (Async.Py (Exception ("API Error 600: " ++ msg))).
Proof.
  apply (clients_differ_from_600
           (answering 600 "Odd" (Decoded (PyDict [])))
           (answering 600 "Odd" (Decoded (PyDict [])))
           anonymous (Async.__init__ None None) "GET" "/health" None []
           {| status_code := 600; reason := "Odd";
              response_url := "https://api.crystalshards.org/health";
              body := Decoded (PyDict []) |} []);
    [reflexivity | reflexivity | simpl; lia | reflexivity].
Defined.



(** X17.  A call of the asynchronous [_request] on a client built by
    [__init__]: without [aiohttp] it fails at once and nothing is sent; with
    it, exactly one request is made, to the stripped base URL followed by
    the endpoint, under headers built for this call: the JSON content type,
    the asynchronous user agent, and [Authorization: Bearer <key>] exactly
    when the key is a non-empty string. *)
Theorem async_request_shape (net : Transport) (base key : option string)
    (verb endpoint : string) (kwargs : option pyval)
    (requests_so_far : list Request) :
  Async._request false net (Async.__init__ base key) verb endpoint kwargs
    requests_so_far =
    (Async.Failed
       (Async.Py (Exception
                    "aiohttp required for async client: pip install aiohttp")),
     requests_so_far) /\
  exists rq,
    snd (Async._request true net (Async.__init__ base key) verb endpoint
           kwargs requests_so_far) = (requests_so_far ++ [rq])%list /\
    method rq = verb /\
    json rq = kwargs /\
    url rq = rstrip "/" (arg_or "https://api.crystalshards.org" base) ++
             endpoint /\
    lookup "Content-Type" (headers rq) = Some "application/json" /\
    lookup "User-Agent" (headers rq) =
      Some "CrystalShardsClient/1.0.0 (Python/Async)" /\
    lookup "Authorization" (headers rq) =
      match key with
      | Some k => if String.eqb k EmptyString then None
                  else Some ("Bearer " ++ k)
      | None => None
      end.
Proof.
  split; [reflexivity|].
  eexists. split; [apply async_request_world|].
  cbn [method json url headers].
  unfold Async.request_headers, Async.__init__. cbn [Async.api_key].
  destruct key as [k|]; simpl; [|now repeat split].
  destruct (String.eqb k EmptyString); now repeat split.
Qed.

(** X18.  Both clients build a search the same way: for the same base URL,
    key, query and options they ask for the same URL with the same verb, no
    body, and the same [Authorization] header. *)
Theorem async_search_matches_sync (net net' : Transport)
    (base key : option string) (query : string) (options : dict pyval)
    (sync_requests async_requests : list Request) :
  exists rq rq',
    wire (snd (search_shards net query options
                 {| client := __init__ base key; wire := sync_requests |}))
      = (sync_requests ++ [rq])%list /\
    snd (Async.search_shards true net' (Async.__init__ base key) query
           options async_requests) = (async_requests ++ [rq'])%list /\
    method rq = method rq' /\
    url rq = url rq' /\
    json rq = json rq' /\
    (exists qs, query_string (url rq) = Some qs) /\
    lookup "Authorization" (headers rq) =
    lookup "Authorization" (headers rq').
Proof.
  do 2 eexists. split.
  - unfold search_shards. rewrite _request_world. reflexivity.
  - split; [apply async_request_world|].
    cbn [method url json headers prepare client base_url].
    repeat split.
    + set (qs := Urllib.urlencode _). clearbody qs.
      induction (base_url (__init__ base key)) as [|a s IH]; simpl;
        [now exists qs|].
      destruct (Ascii.eqb a "?"); [eauto | exact IH].
    + unfold Async.request_headers, Async.__init__, __init__.
      cbn [Async.api_key session session_headers].
      destruct key as [k|]; simpl; [|reflexivity].
      destruct (String.eqb k EmptyString); reflexivity.
Qed.
